(** * gagara-tsclient: the request/response contract and error taxonomy

    A shallow embedding of [src/types.ts], [src/client.ts] and the
    [dataset.ts] that [client.ts] imports.  The two classes are thin
    wrappers around an injected HTTP transport, so the embedding is a small
    state-and-exception monad over a world that holds the transport's state,
    the pending timers and a chronological event log.

    What the platform provides and the repository does not define is kept
    abstract: the type of JavaScript numbers with its [Number::toString],
    the state of the network, and [globalThis.fetch]. *)

From Stdlib Require Import ZArith Ascii.
From stdpp Require Import base gmap sets list strings pretty.

Open Scope string_scope.
Open Scope Z_scope.

Set Warnings "-register-all,-clear-no-such-hyp".

(** The platform's numbers: IEEE doubles with their [Number::toString]. *)
Class JSNumber (number : Type) : Type :=
  Number_toString : number → string.

Section Platform.

(** ** JavaScript values *)

Context {number : Type} {number_ops : JSNumber number}.

(** What [await res.json()] can produce, together with [undefined]. Objects
    are association lists read from the front. *)
Inductive value : Type :=
| VUndefined
| VNull
| VBool (b : bool)
| VNum (n : number)
| VStr (s : string)
| VArr (items : list value)
| VObj (fields : list (string * value)).

Fixpoint own_property (k : string) (fields : list (string * value)) : value :=
  match fields with
  | [] => VUndefined
  | (k', v) :: rest => if String.eqb k k' then v else own_property k rest
  end.

Fixpoint has_own_property (k : string) (fields : list (string * value)) : bool :=
  match fields with
  | [] => false
  | (k', _) :: rest => String.eqb k k' || has_own_property k rest
  end.

(** The abstract operation ToString, which template-literal interpolation
    [`${v}`] and the [Error] constructor apply; [None] is the TypeError
    "cannot convert object to primitive value".

    An object is converted by its [toString] method and then its [valueOf].
    A parsed object inherits both from [Object.prototype] (taken as the
    platform ships it) and prints as
    "[object Object]", unless it has an own [toString] key: the value under
    it is data, not a function, [valueOf] (own or inherited) gives no
    primitive either, and the conversion throws.  An array prints through
    [Array.prototype.join], which renders [null] and [undefined] elements as
    the empty string and converts the others in order, so it throws when one
    of them does. *)
Fixpoint ToString (v : value) : option string :=
  match v with
  | VUndefined => Some "undefined"
  | VNull => Some "null"
  | VBool b => Some (if b then "true" else "false")
  | VNum n => Some (Number_toString n)
  | VStr s => Some s
  | VArr items =>
      (fix join (l : list value) : option string :=
         match l with
         | [] => Some ""
         | x :: rest =>
             match (match x with
                    | VUndefined | VNull => Some ""
                    | _ => ToString x
                    end) with
             | None => None
             | Some hd =>
                 match rest with
                 | [] => Some hd
                 | _ :: _ =>
                     match join rest with
                     | None => None
                     | Some tl => Some (hd +:+ "," +:+ tl)
                     end
                 end
             end
         end) items
  | VObj fields =>
      if has_own_property "toString" fields then None else Some "[object Object]"
  end.

(** [a ?? b] *)
Definition nullish (a b : value) : value :=
  match a with
  | VUndefined | VNull => b
  | _ => a
  end.

(** [v?.k], for the keys the client reads ([error]): none of them is found
    on the prototype of a primitive or of an array. *)
Definition optional_chain (v : value) (k : string) : value :=
  match v with
  | VObj fields => own_property k fields
  | _ => VUndefined
  end.

(** ** Errors ([src/types.ts]) *)

Inductive error_class : Type :=
| GagaraErrorClass
| DatasetNotFoundErrorClass
| QueryErrorClass.

(** An instance of [GagaraError] or of one of its two subclasses: [class] is
    what [instanceof] sees, [name] the string the constructor stores. *)
Record GagaraError : Type := mkGagaraError {
  class : error_class;
  name : string;
  message : string;
  status : Z;
  body : value
}.

(** [super(message)] of the built-in [Error]: the message is coerced with
    ToString unless it is [undefined]; [None] when the coercion throws. *)
Definition Error_message (m : value) : option string :=
  match m with
  | VUndefined => Some ""
  | _ => ToString m
  end.

(** The constructors. Each gives the error object, or [None] when it throws
    the TypeError of a failed conversion before there is an object. *)
Definition new_GagaraError (msg : value) (st : Z) (b : value) : option GagaraError :=
  match Error_message msg with
  | None => None
  | Some text =>
      Some {| class := GagaraErrorClass;
              name := "GagaraError";
              message := text;
              status := st;
              body := b |}
  end.

(** A subclass constructor runs [super(...)] and then overwrites [name]. *)
Definition extends (c : error_class) (n : string) (base : GagaraError) : GagaraError :=
  {| class := c;
     name := n;
     message := message base;
     status := status base;
     body := body base |}.

Definition new_DatasetNotFoundError (token : value) : option GagaraError :=
  match ToString token with
  | None => None
  | Some t =>
      extends DatasetNotFoundErrorClass "DatasetNotFoundError"
        <$> new_GagaraError (VStr ("Dataset not found: " +:+ t)) 404 VUndefined
  end.

Definition new_QueryError (msg : value) (b : value) : option GagaraError :=
  extends QueryErrorClass "QueryError" <$> new_GagaraError msg 400 b.

(** Errors that are not instances of the client's classes: the TypeErrors
    the engine throws on a bad property read and on a failed conversion to
    string, what [res.json()] rejects with, and what the transport rejects
    with (an abort after the timeout, or anything else, here a network error
    with its description). *)
Inductive foreign_error : Type :=
| TypeError (property : string)
| ConversionError
| SyntaxError (detail : string)
| AbortError
| NetworkError (detail : string).

Inductive exn : Type :=
| Gagara (e : GagaraError)
| Foreign (f : foreign_error).

(** ** Requests, responses and the transport *)

(** A request body: [BodyJson v] is the string [JSON.stringify(v)], which is
    a function of [v]; [BodyBytes b] is a byte buffer. *)
Inductive BodyInit : Type :=
| BodyJson (v : value)
| BodyBytes (b : list Byte.byte).

Record RequestInit : Type := mkRequestInit {
  method : option string;
  headers : list (string * string);
  req_body : option BodyInit
}.

Record Request : Type := mkRequest {
  url : string;
  init : RequestInit
}.

(** A settled platform promise. *)
Inductive promise (A : Type) : Type :=
| Fulfilled (a : A)
| Rejected (reason : foreign_error).
Arguments Fulfilled {A} a.
Arguments Rejected {A} reason.

(** The part of a [Response] the client reads: [res_status], and what
    [await res.json()] settles to. *)
Record Response : Type := mkResponse {
  res_status : Z;
  json : promise value
}.

(** [res.ok], as the Fetch standard defines it and the test suite's mock
    computes it. *)
Definition ok (res : Response) : bool :=
  (200 <=? res_status res) && (res_status res <? 300).

Context {Env : Type}.

(** How one call of the transport ends: whether the call's timer ran (and
    aborted the signal) while it was in flight, and what the returned promise
    settled to. *)
Record settlement : Type := mkSettlement {
  timer_fired : bool;
  fetched : promise Response
}.

Definition transport : Type := Request → Env → settlement * Env.

Variable global_fetch : transport.

(** ** The world and the monad *)

Inductive event : Type :=
| EvSetTimeout (id : nat) (ms : Z)
| EvFetch (req : Request) (signal : nat)
| EvTimerFired (id : nat)
| EvClearTimeout (id : nat).

Record World : Type := mkWorld {
  env : Env;
  pending : gset nat;
  next_timer : nat;
  log : list event
}.

Inductive outcome (A : Type) : Type :=
| Returns (a : A)
| Throws (e : exn).
Arguments Returns {A} a.
Arguments Throws {A} e.

Definition M (A : Type) : Type := World → outcome A * World.

Definition ret {A} (a : A) : M A := λ w, (Returns a, w).

Definition throw {A} (e : exn) : M A := λ w, (Throws e, w).

Definition bind {A B} (m : M A) (k : A → M B) : M B :=
  λ w, match m w with
       | (Returns a, w') => k a w'
       | (Throws e, w') => (Throws e, w')
       end.

(** [try { m } catch { h }] *)
Definition try_catch {A} (m : M A) (h : exn → M A) : M A :=
  λ w, match m w with
       | (Returns a, w') => (Returns a, w')
       | (Throws e, w') => h e w'
       end.

(** [try { m } finally { f }]: [f] runs on both paths and its own throw, if
    any, replaces the outcome of [m]. *)
Definition try_finally {A} (m : M A) (f : M unit) : M A :=
  λ w, let '(o, w') := m w in
       match f w' with
       | (Returns _, w'') => (o, w'')
       | (Throws e, w'') => (Throws e, w'')
       end.

Notation "x <- m ;; k" := (bind m (λ x, k))
  (at level 100, m at next level, right associativity, only parsing).

(** [await p] *)
Definition await {A} (p : promise A) : M A :=
  match p with
  | Fulfilled a => ret a
  | Rejected r => throw (Foreign r)
  end.

(** [v.k]: reading a property of [null] or [undefined] throws a TypeError.
    The keys the client reads ([rows], [columns], [isPresent], [token]) are
    on no built-in prototype, so a primitive or an array gives [undefined]. *)
Definition get_property (v : value) (k : string) : M value :=
  match v with
  | VUndefined | VNull => throw (Foreign (TypeError k))
  | VObj fields => ret (own_property k fields)
  | _ => ret VUndefined
  end.

Definition setTimeout (ms : Z) : M nat :=
  λ w, let id := next_timer w in
       (Returns id,
        {| env := env w;
           pending := {[id]} ∪ pending w;
           next_timer := S id;
           log := log w ++ [EvSetTimeout id ms] |}).

Definition clearTimeout (id : nat) : M unit :=
  λ w, (Returns tt,
        {| env := env w;
           pending := pending w ∖ {[id]};
           next_timer := next_timer w;
           log := log w ++ [EvClearTimeout id] |}).

(** [await fetchFn(url, {...init, signal})], where [signal] belongs to the
    controller that timer [signal] aborts. *)
Definition call_fetch (f : transport) (req : Request) (signal : nat) : M Response :=
  λ w, let '(s, e') := f req (env w) in
       let w1 := {| env := e';
                    pending := pending w;
                    next_timer := next_timer w;
                    log := log w ++ [EvFetch req signal] |} in
       let w2 := if timer_fired s
                 then {| env := env w1;
                         pending := pending w1 ∖ {[signal]};
                         next_timer := next_timer w1;
                         log := log w1 ++ [EvTimerFired signal] |}
                 else w1 in
       await (fetched s) w2.

(** [`${v}`] inside a template literal. *)
Definition interpolate (v : value) : M string :=
  match ToString v with
  | Some text => ret text
  | None => throw (Foreign ConversionError)
  end.

(** [throw new C(...)]: the constructor runs first, and may itself throw. *)
Definition throw_new {A} (constructed : option GagaraError) : M A :=
  match constructed with
  | Some e => throw (Gagara e)
  | None => throw (Foreign ConversionError)
  end.

(** [{...init}] for the optional second argument of [#request]. *)
Definition spread (i : option RequestInit) : RequestInit :=
  match i with
  | Some r => r
  | None => {| method := None; headers := []; req_body := None |}
  end.

(** ** [Dataset] ([dataset.ts], the file [client.ts] imports it from) *)

Record Dataset : Type := mkDataset {
  token : value;
  Dataset_baseUrl : string;
  Dataset_fetch : transport;
  Dataset_timeout : Z
}.

Definition Dataset_request (ds : Dataset) (path : string) (i : option RequestInit)
  : M Response :=
  timeoutId <- setTimeout (Dataset_timeout ds) ;;
  try_finally
    (call_fetch (Dataset_fetch ds)
       {| url := Dataset_baseUrl ds +:+ path; init := spread i |} timeoutId)
    (clearTimeout timeoutId).

Definition Dataset_parseError (res : Response) : M value :=
  try_catch (await (json res)) (λ _, ret VUndefined).

Definition query (ds : Dataset) (sql : string) : M value :=
  t <- interpolate (token ds) ;;
  res <- Dataset_request ds "/query"
           (Some {| method := Some "POST";
                    headers := [("Content-Type", "application/json");
                                ("Authorization", "Bearer " +:+ t)];
                    req_body := Some (BodyJson (VObj [("sql", VStr sql)])) |}) ;;
  if negb (ok res) then
    b <- Dataset_parseError res ;;
    if res_status res =? 404 then
      throw_new (new_DatasetNotFoundError (token ds))
    else
      throw_new (new_QueryError
                   (nullish (optional_chain b "error") (VStr "Query failed")) b)
  else
    data <- await (json res) ;;
    get_property data "rows".

Definition queryFull (ds : Dataset) (sql : string) : M value :=
  t <- interpolate (token ds) ;;
  res <- Dataset_request ds "/query"
           (Some {| method := Some "POST";
                    headers := [("Content-Type", "application/json");
                                ("Authorization", "Bearer " +:+ t)];
                    req_body := Some (BodyJson (VObj [("sql", VStr sql)])) |}) ;;
  if negb (ok res) then
    b <- Dataset_parseError res ;;
    if res_status res =? 404 then
      throw_new (new_DatasetNotFoundError (token ds))
    else
      throw_new (new_QueryError
                   (nullish (optional_chain b "error") (VStr "Query failed")) b)
  else
    await (json res).

Definition schema (ds : Dataset) : M value :=
  t <- interpolate (token ds) ;;
  res <- Dataset_request ds ("/catalog/" +:+ t +:+ "/schema") None ;;
  if negb (ok res) then
    if res_status res =? 404 then
      throw_new (new_DatasetNotFoundError (token ds))
    else
      throw_new (new_GagaraError (VStr "Failed to get schema") (res_status res) VUndefined)
  else
    data <- await (json res) ;;
    get_property data "columns".

Definition meta (ds : Dataset) : M value :=
  t <- interpolate (token ds) ;;
  res <- Dataset_request ds ("/catalog/" +:+ t +:+ "/meta") None ;;
  if negb (ok res) then
    if res_status res =? 404 then
      throw_new (new_DatasetNotFoundError (token ds))
    else
      throw_new (new_GagaraError (VStr "Failed to get metadata") (res_status res) VUndefined)
  else
    await (json res).

Definition isPresent (ds : Dataset) : M value :=
  t <- interpolate (token ds) ;;
  res <- Dataset_request ds ("/catalog/" +:+ t +:+ "/is-present") None ;;
  if negb (ok res) then
    throw_new (new_GagaraError (VStr "Failed to check presence") (res_status res) VUndefined)
  else
    data <- await (json res) ;;
    get_property data "isPresent".

Definition rename (ds : Dataset) (newName : string) : M unit :=
  t <- interpolate (token ds) ;;
  res <- Dataset_request ds ("/catalog/" +:+ t +:+ "/rename")
           (Some {| method := Some "POST";
                    headers := [("Content-Type", "application/json")];
                    req_body := Some (BodyJson (VObj [("new_name", VStr newName)])) |}) ;;
  if negb (ok res) then
    if res_status res =? 404 then
      throw_new (new_DatasetNotFoundError (token ds))
    else
      throw_new (new_GagaraError (VStr "Failed to rename") (res_status res) VUndefined)
  else
    ret tt.

(** [Dataset.delete]; the bare name is taken by stdpp's map operation. *)
Definition Dataset_delete (ds : Dataset) : M unit :=
  t <- interpolate (token ds) ;;
  res <- Dataset_request ds ("/catalog/" +:+ t)
           (Some {| method := Some "DELETE"; headers := []; req_body := None |}) ;;
  if negb (ok res) then
    if res_status res =? 404 then
      throw_new (new_DatasetNotFoundError (token ds))
    else
      throw_new (new_GagaraError (VStr "Failed to delete") (res_status res) VUndefined)
  else
    ret tt.

(** ** [GagaraClient] ([src/client.ts]) *)

Inductive DataFormat : Type := csv | parquet.

Definition DataFormat_string (f : DataFormat) : string :=
  match f with
  | csv => "csv"
  | parquet => "parquet"
  end.

Record UploadOptions : Type := mkUploadOptions {
  format : option DataFormat
}.

Record ClientOptions : Type := mkClientOptions {
  options_baseUrl : string;
  options_fetch : option transport;
  options_timeout : option Z
}.

(** [data: Uint8Array | ArrayBuffer] *)
Inductive BinaryData : Type :=
| Uint8Array (bytes : list Byte.byte)
| ArrayBuffer (bytes : list Byte.byte).

Record GagaraClient : Type := mkGagaraClient {
  Client_baseUrl : string;
  Client_fetch : transport;
  Client_timeout : Z
}.

(** [s.replace(/\/$/, '')]: without the [m] flag [$] only matches at the end
    of the input, so at most one final slash goes. *)
Fixpoint strip_trailing_slash (s : string) : string :=
  match s with
  | EmptyString => EmptyString
  | String c EmptyString => if Ascii.eqb c "/"%char then EmptyString else s
  | String c rest => String c (strip_trailing_slash rest)
  end.

Definition new_GagaraClient (options : ClientOptions) : GagaraClient :=
  {| Client_baseUrl := strip_trailing_slash (options_baseUrl options);
     Client_fetch := default global_fetch (options_fetch options);
     Client_timeout := default 30000 (options_timeout options) |}.

Definition Client_request (c : GagaraClient) (path : string) (i : option RequestInit)
  : M Response :=
  timeoutId <- setTimeout (Client_timeout c) ;;
  try_finally
    (call_fetch (Client_fetch c)
       {| url := Client_baseUrl c +:+ path; init := spread i |} timeoutId)
    (clearTimeout timeoutId).

Definition Client_parseError (res : Response) : M value :=
  try_catch (await (json res)) (λ _, ret VUndefined).

Definition upload (c : GagaraClient) (data : BinaryData) (dataset_name : string)
    (options : UploadOptions) : M Dataset :=
  let fmt := default "csv" (DataFormat_string <$> format options) in
  let bytes := match data with
               | ArrayBuffer b => b
               | Uint8Array b => b
               end in
  res <- Client_request c "/catalog"
           (Some {| method := Some "POST";
                    headers := [("Content-Type", "application/octet-stream");
                                ("X-Gagara-Name", dataset_name);
                                ("X-Gagara-Format", fmt)];
                    req_body := Some (BodyBytes bytes) |}) ;;
  if negb (ok res) then
    errorBody <- Client_parseError res ;;
    throw_new (new_GagaraError
                 (nullish (optional_chain errorBody "error")
                    (VStr ("Upload failed: " +:+ pretty (res_status res))))
                 (res_status res)
                 errorBody)
  else
    result <- await (json res) ;;
    tok <- get_property result "token" ;;
    ret {| token := tok;
           Dataset_baseUrl := Client_baseUrl c;
           Dataset_fetch := Client_fetch c;
           Dataset_timeout := Client_timeout c |}.

Definition fromToken (c : GagaraClient) (t : string) : Dataset :=
  {| token := VStr t;
     Dataset_baseUrl := Client_baseUrl c;
     Dataset_fetch := Client_fetch c;
     Dataset_timeout := Client_timeout c |}.

Definition health (c : GagaraClient) : M bool :=
  try_catch
    (res <- Client_request c "/health" None ;;
     ret (ok res))
    (λ _, ret false).

(** ** The operations as one family

    Every [Dataset] method as a constructor, so that a property of "every
    token-scoped operation" is one statement.  [perform] only dispatches; a
    method that resolves to [void] yields [undefined]. *)

Inductive dataset_op : Type :=
| OpQuery (sql : string)
| OpQueryFull (sql : string)
| OpSchema
| OpMeta
| OpIsPresent
| OpRename (newName : string)
| OpDelete.

Definition perform (ds : Dataset) (op : dataset_op) : M value :=
  match op with
  | OpQuery sql => query ds sql
  | OpQueryFull sql => queryFull ds sql
  | OpSchema => schema ds
  | OpMeta => meta ds
  | OpIsPresent => isPresent ds
  | OpRename newName => _ <- rename ds newName ;; ret VUndefined
  | OpDelete => _ <- Dataset_delete ds ;; ret VUndefined
  end.

Definition is_query (op : dataset_op) : bool :=
  match op with
  | OpQuery _ | OpQueryFull _ => true
  | _ => false
  end.

(** The request a method hands to the transport once its token has been
    interpolated as [t]. *)
Definition issued_with (ds : Dataset) (t : string) (op : dataset_op) : Request :=
  match op with
  | OpQuery sql | OpQueryFull sql =>
      {| url := Dataset_baseUrl ds +:+ "/query";
         init := {| method := Some "POST";
                    headers := [("Content-Type", "application/json");
                                ("Authorization", "Bearer " +:+ t)];
                    req_body := Some (BodyJson (VObj [("sql", VStr sql)])) |} |}
  | OpSchema =>
      {| url := Dataset_baseUrl ds +:+ ("/catalog/" +:+ t +:+ "/schema");
         init := spread None |}
  | OpMeta =>
      {| url := Dataset_baseUrl ds +:+ ("/catalog/" +:+ t +:+ "/meta");
         init := spread None |}
  | OpIsPresent =>
      {| url := Dataset_baseUrl ds +:+ ("/catalog/" +:+ t +:+ "/is-present");
         init := spread None |}
  | OpRename newName =>
      {| url := Dataset_baseUrl ds +:+ ("/catalog/" +:+ t +:+ "/rename");
         init := {| method := Some "POST";
                    headers := [("Content-Type", "application/json")];
                    req_body := Some (BodyJson (VObj [("new_name", VStr newName)])) |} |}
  | OpDelete =>
      {| url := Dataset_baseUrl ds +:+ ("/catalog/" +:+ t);
         init := {| method := Some "DELETE"; headers := []; req_body := None |} |}
  end.

(** The request a method hands to the transport; none when the token does
    not convert to a string, for then the method throws while it builds the
    address or the header, before [#request] is called. *)
Definition issued (ds : Dataset) (op : dataset_op) : option Request :=
  match ToString (token ds) with
  | Some t => Some (issued_with ds t op)
  | None => None
  end.

Definition upload_request (c : GagaraClient) (data : BinaryData) (dataset_name : string)
    (options : UploadOptions) : Request :=
  {| url := Client_baseUrl c +:+ "/catalog";
     init := {| method := Some "POST";
                headers := [("Content-Type", "application/octet-stream");
                            ("X-Gagara-Name", dataset_name);
                            ("X-Gagara-Format",
                             default "csv" (DataFormat_string <$> format options))];
                req_body := Some (BodyBytes match data with
                                            | ArrayBuffer b => b
                                            | Uint8Array b => b
                                            end) |} |}.

Definition health_request (c : GagaraClient) : Request :=
  {| url := Client_baseUrl c +:+ "/health"; init := spread None |}.

(** Every call the two classes can make on the network. *)
Inductive operation : Type :=
| OnDataset (ds : Dataset) (op : dataset_op)
| Upload (c : GagaraClient) (data : BinaryData) (dataset_name : string)
    (options : UploadOptions)
| Health (c : GagaraClient).

Definition transport_of (o : operation) : transport :=
  match o with
  | OnDataset ds _ => Dataset_fetch ds
  | Upload c _ _ _ | Health c => Client_fetch c
  end.

Definition timeout_of (o : operation) : Z :=
  match o with
  | OnDataset ds _ => Dataset_timeout ds
  | Upload c _ _ _ | Health c => Client_timeout c
  end.

Definition request_of (o : operation) : option Request :=
  match o with
  | OnDataset ds op => issued ds op
  | Upload c data dataset_name options =>
      Some (upload_request c data dataset_name options)
  | Health c => Some (health_request c)
  end.

Definition thrown {A} (r : outcome A * World) : option exn :=
  match r.1 with
  | Throws e => Some e
  | Returns _ => None
  end.

(** What the caller of [o] catches, if anything, and the world it is left in. *)
Definition raised (o : operation) (w : World) : option exn :=
  match o with
  | OnDataset ds op => thrown (perform ds op w)
  | Upload c data dataset_name options => thrown (upload c data dataset_name options w)
  | Health c => thrown (health c w)
  end.

Definition world_after (o : operation) (w : World) : World :=
  match o with
  | OnDataset ds op => (perform ds op w).2
  | Upload c data dataset_name options => (upload c data dataset_name options w).2
  | Health c => (health c w).2
  end.

Definition is_query_operation (o : operation) : bool :=
  match o with
  | OnDataset _ op => is_query op
  | _ => false
  end.

(** What [#parseError] resolves to, and the [error] field read off it. *)
Definition parsed_error (res : Response) : value :=
  match json res with
  | Fulfilled b => b
  | Rejected _ => VUndefined
  end.

Definition error_field (res : Response) : value :=
  optional_chain (parsed_error res) "error".

(** Whether the error [o] throws for the non-2xx response [res] takes its
    message from the response body: the QueryError of the query methods and
    the GagaraError of [upload] do. *)
Definition message_from_body (o : operation) (res : Response) : bool :=
  match o with
  | OnDataset _ op => is_query op && negb (res_status res =? 404)
  | Upload _ _ _ _ => true
  | Health _ => false
  end.

(** What a settled promise gives to the code that awaits it. *)
Definition settle {A} (p : promise A) : outcome A :=
  match p with
  | Fulfilled a => Returns a
  | Rejected r => Throws (Foreign r)
  end.

(** The world once a [#request] with timeout [t] has returned or thrown. *)
Definition world_after_request (t : Z) (req : Request) (s : settlement) (e' : Env)
    (w : World) : World :=
  let id := next_timer w in
  let armed : gset nat := {[id]} ∪ pending w in
  let sent := ((log w ++ [EvSetTimeout id t]) ++ [EvFetch req id])%list in
  {| env := e';
     pending := (if timer_fired s then armed ∖ {[id]} else armed) ∖ {[id]};
     next_timer := S id;
     log := ((if timer_fired s then sent ++ [EvTimerFired id] else sent)
             ++ [EvClearTimeout id])%list |}.

(** Timer identifiers are handed out in increasing order, so every pending
    one is below the next. *)
Definition timers_fresh (w : World) : Prop :=
  ∀ id, id ∈ pending w → (id < next_timer w)%nat.

(** A call with timeout [t] that sends [req], from [w] to [w']: the timer is
    armed first, the transport is invoked once, with [req] and under the
    timer's signal, the timer is cleared last, and the set of pending timers
    is what it was. *)
Definition timer_scoped (t : Z) (req : Request) (w w' : World) : Prop :=
  pending w' = pending w ∧
  timers_fresh w' ∧
  next_timer w' = S (next_timer w) ∧
  ∃ fired,
    log w' = (log w
              ++ [EvSetTimeout (next_timer w) t; EvFetch req (next_timer w)]
              ++ (if fired : bool then [EvTimerFired (next_timer w)] else [])
              ++ [EvClearTimeout (next_timer w)])%list.

(** * Properties *)

(** ** Conversions and constructors *)

Lemma issued_Some ds op req :
  issued ds op = Some req →
  ∃ t, ToString (token ds) = Some t ∧ req = issued_with ds t op.
Proof.
  unfold issued. destruct (ToString (token ds)) as [t |]; [| discriminate].
  intros [= <-]. by exists t.
Qed.

Lemma new_DatasetNotFoundError_converted tok t :
  ToString tok = Some t →
  new_DatasetNotFoundError tok
  = Some {| class := DatasetNotFoundErrorClass; name := "DatasetNotFoundError";
            message := "Dataset not found: " +:+ t; status := 404; body := VUndefined |}.
Proof. intros Ht. unfold new_DatasetNotFoundError. rewrite Ht. reflexivity. Qed.

Lemma new_GagaraError_shape msg st b g :
  new_GagaraError msg st b = Some g →
  class g = GagaraErrorClass ∧ name g = "GagaraError" ∧ status g = st ∧ body g = b.
Proof.
  unfold new_GagaraError. destruct (Error_message msg); [| discriminate].
  intros [= <-]. repeat split.
Qed.

Lemma new_QueryError_shape msg b g :
  new_QueryError msg b = Some g →
  class g = QueryErrorClass ∧ name g = "QueryError" ∧ status g = 400 ∧ body g = b.
Proof.
  unfold new_QueryError, new_GagaraError. destruct (Error_message msg); [| discriminate].
  intros [= <-]. repeat split.
Qed.

Lemma Error_message_nullish v (dflt text : string) :
  ToString v = Some text →
  Error_message (nullish v (VStr dflt))
  = Some match v with
         | VUndefined | VNull => dflt
         | _ => text
         end.
Proof. destruct v; cbn; intros Hv; try reflexivity; exact Hv. Qed.

Lemma Error_message_unconvertible v (dflt : string) :
  ToString v = None → Error_message (nullish v (VStr dflt)) = None.
Proof. destruct v; cbn; intros Hv; try discriminate; exact Hv. Qed.

(** ** Running a request *)

Lemma ok_spec (res : Response) :
  ok res = true ↔ 200 ≤ res_status res < 300.
Proof. unfold ok. rewrite andb_true_iff, Z.leb_le, Z.ltb_lt. tauto. Qed.

Lemma ok_404 (res : Response) : res_status res = 404 → ok res = false.
Proof. intros E. unfold ok. rewrite E. reflexivity. Qed.

Lemma Dataset_request_run ds path i w s e' :
  Dataset_fetch ds {| url := Dataset_baseUrl ds +:+ path; init := spread i |} (env w)
    = (s, e') →
  Dataset_request ds path i w
    = (settle (fetched s),
       world_after_request (Dataset_timeout ds)
         {| url := Dataset_baseUrl ds +:+ path; init := spread i |} s e' w).
Proof.
  intros Hf. unfold Dataset_request, bind, try_finally, call_fetch, setTimeout,
    clearTimeout, world_after_request. cbn. rewrite Hf.
  destruct s as [[] [res | r]]; reflexivity.
Qed.

Lemma Client_request_run c path i w s e' :
  Client_fetch c {| url := Client_baseUrl c +:+ path; init := spread i |} (env w)
    = (s, e') →
  Client_request c path i w
    = (settle (fetched s),
       world_after_request (Client_timeout c)
         {| url := Client_baseUrl c +:+ path; init := spread i |} s e' w).
Proof.
  intros Hf. unfold Client_request, bind, try_finally, call_fetch, setTimeout,
    clearTimeout, world_after_request. cbn. rewrite Hf.
  destruct s as [[] [res | r]]; reflexivity.
Qed.

Lemma world_after_request_scoped t req s e' w :
  timers_fresh w → timer_scoped t req w (world_after_request t req s e' w).
Proof.
  intros Hfresh.
  assert (Hnew : next_timer w ∉ pending w).
  { intros Hin. apply Hfresh in Hin. lia. }
  unfold timer_scoped, world_after_request, timers_fresh. cbn.
  split; [| split; [| split]].
  - destruct (timer_fired s); set_solver.
  - intros id Hin.
    assert (id ∈ pending w) as Hold by (destruct (timer_fired s); set_solver).
    apply Hfresh in Hold. lia.
  - reflexivity.
  - exists (timer_fired s).
    destruct (timer_fired s); cbn; rewrite <- ?app_assoc; reflexivity.
Qed.

(** Unfold a method down to its [#request], interpolate the token as [Ht]
    says, run the request with the transport's answer [Hf], and simplify
    what follows. *)
Ltac run_dataset Ht Hf :=
  unfold perform, query, queryFull, schema, meta, isPresent, rename,
    Dataset_delete, bind, interpolate;
  rewrite ?Ht; cbn -[Dataset_request];
  erewrite Dataset_request_run by exact Hf;
  cbn.

Ltac run_client Hf :=
  unfold upload, health, try_catch, bind;
  erewrite Client_request_run by exact Hf;
  cbn.

(** A method on a handle whose token does not convert. *)
Ltac run_unconvertible Ht :=
  unfold perform, query, queryFull, schema, meta, isPresent, rename,
    Dataset_delete, bind, interpolate;
  rewrite ?Ht; cbn.

(** ** Error mapping of the token-scoped operations *)

(** C1. For query, queryFull, schema, meta, rename and delete, when the
    request the operation sends is answered with a non-2xx response, the
    operation throws one of the client's errors: on status 404 an instance of
    DatasetNotFoundError whose message ends with the handle's token, on any
    other status an instance of QueryError (the two query methods) or of
    plain GagaraError (the others), and never a DatasetNotFoundError.  The
    QueryError takes its message from the body's [error] field, which has to
    convert to a string (as a string, a number, [null] or a missing field
    do) for the error to be constructed. *)
Theorem C1_not_found_exactly_on_404 ds op w req s e' res :
  op ≠ OpIsPresent →
  issued ds op = Some req →
  Dataset_fetch ds req (env w) = (s, e') →
  fetched s = Fulfilled res →
  ok res = false →
  (is_query op = true → res_status res ≠ 404 → is_Some (ToString (error_field res))) →
  ∃ e t, (perform ds op w).1 = Throws (Gagara e) ∧
         ToString (token ds) = Some t ∧
         (res_status res = 404 →
            class e = DatasetNotFoundErrorClass ∧
            name e = "DatasetNotFoundError" ∧
            message e = "Dataset not found: " +:+ t) ∧
         (res_status res ≠ 404 →
            class e = (if is_query op then QueryErrorClass else GagaraErrorClass) ∧
            name e = (if is_query op then "QueryError" else "GagaraError") ∧
            class e ≠ DatasetNotFoundErrorClass).
Proof.
  intros Hop (t & Ht & ->)%issued_Some Hf Hres Hok Hmsg.
  destruct (Z.eqb_spec (res_status res) 404) as [E | E].
  - destruct op; try congruence; run_dataset Ht Hf; rewrite Hres; cbn; rewrite Hok; cbn.
    all: unfold Dataset_parseError, try_catch; cbn.
    all: try destruct (json res) as [b | r]; cbn.
    all: rewrite E; cbn.
    all: rewrite (new_DatasetNotFoundError_converted _ _ Ht); cbn.
    all: eexists; exists t; split; [reflexivity |]; cbn.
    all: repeat split; congruence.
  - destruct op; try congruence; cbn in Hmsg.
    1, 2: destruct (Hmsg eq_refl E) as [text Htext];
      unfold error_field, parsed_error in Htext.
    all: run_dataset Ht Hf; rewrite Hres; cbn; rewrite Hok; cbn.
    all: unfold Dataset_parseError, try_catch; cbn.
    all: try destruct (json res) as [b | r]; cbn.
    all: destruct (Z.eqb_spec (res_status res) 404) as [E' | _]; [contradiction |].
    all: unfold throw_new, new_QueryError, new_GagaraError.
    all: try rewrite (Error_message_nullish _ _ _ Htext).
    all: cbn; eexists; exists t; split; [reflexivity |]; cbn.
    all: repeat split; congruence.
Qed.

(** Split on every constructor call or conversion whose result is not yet
    known. *)
Ltac case_constructed :=
  unfold throw_new;
  repeat match goal with
         | |- context [match ?c with Some _ => _ | None => _ end] =>
             lazymatch c with
             | Some _ => fail
             | None => fail
             | _ => destruct c eqn:?; cbn
             end
         end.

Ltac constructed_shapes :=
  repeat match goal with
         | H : new_QueryError _ _ = Some _ |- _ =>
             apply new_QueryError_shape in H as (? & ? & ? & ?)
         | H : new_GagaraError _ _ _ = Some _ |- _ =>
             apply new_GagaraError_shape in H as (? & ? & ? & ?)
         end.

(** C2, as the code has it. When the request is answered with a non-2xx
    response of status [s], every operation but [health] throws one of the
    client's errors (for the errors whose message comes from the body, the
    [error] field has to convert to a string). Its status is [s] for upload,
    schema, meta, isPresent, rename and delete, and for the
    DatasetNotFoundError of the two query methods (where [s] is 404); the
    QueryError that the two query methods throw for every other [s] always
    has status 400. [health] throws nothing. *)
Theorem C2_status_of_the_error_raised o w req s e' res :
  request_of o = Some req →
  transport_of o req (env w) = (s, e') →
  fetched s = Fulfilled res →
  ok res = false →
  (message_from_body o res = true → is_Some (ToString (error_field res))) →
  match o with
  | Health _ => raised o w = None
  | _ =>
      ∃ e, raised o w = Some (Gagara e) ∧
           status e = (if is_query_operation o && negb (res_status res =? 404)
                       then 400 else res_status res) ∧
           (class e = QueryErrorClass → status e = 400) ∧
           (class e ≠ QueryErrorClass → status e = res_status res)
  end.
Proof.
  intros Hreq Hf Hres Hok Hmsg.
  destruct o as [ds op | c data nm opts | c]; cbn in Hreq, Hf; unfold raised, thrown.
  - apply issued_Some in Hreq as (t & Ht & ->).
    destruct (Z.eqb_spec (res_status res) 404) as [E | E].
    + destruct op; run_dataset Ht Hf; rewrite Hres; cbn; rewrite Hok; cbn.
      all: unfold Dataset_parseError, try_catch; cbn.
      all: try destruct (json res) as [b | r]; cbn.
      all: try (rewrite E; cbn).
      all: rewrite ?(new_DatasetNotFoundError_converted _ _ Ht); cbn.
      all: eexists; split; [reflexivity |]; cbn.
      all: repeat split; congruence.
    + destruct op; cbn in Hmsg.
      1, 2: apply Z.eqb_neq in E as E'; rewrite E' in Hmsg;
        destruct (Hmsg eq_refl) as [text Htext];
        unfold error_field, parsed_error in Htext.
      all: run_dataset Ht Hf; rewrite Hres; cbn; rewrite Hok; cbn.
      all: unfold Dataset_parseError, try_catch; cbn.
      all: try destruct (json res) as [b | r]; cbn.
      all: try (destruct (Z.eqb_spec (res_status res) 404) as [E'' | _];
                [contradiction |]).
      all: unfold throw_new, new_QueryError, new_GagaraError.
      all: try rewrite (Error_message_nullish _ _ _ Htext).
      all: cbn; eexists; split; [reflexivity |]; cbn.
      all: repeat split; congruence.
  - injection Hreq as <-. destruct (Hmsg eq_refl) as [text Htext].
    unfold error_field, parsed_error in Htext.
    run_client Hf. rewrite Hres; cbn; rewrite Hok; cbn.
    unfold Client_parseError, try_catch; cbn.
    destruct (json res) as [b | r]; cbn.
    all: unfold throw_new, new_GagaraError.
    all: rewrite ?(Error_message_nullish _ _ _ Htext).
    all: cbn; eexists; split; [reflexivity |]; cbn.
    all: repeat split; congruence.
  - injection Hreq as <-. run_client Hf. rewrite Hres. reflexivity.
Qed.

(** ** What a successful call returns *)

(** C3. [query(sql)] is [queryFull(sql)] followed by reading [rows] — as
    whole computations, so on every handle, every transport and from every
    world they end in the same world with the same result or the same error.
    When the request is answered with a 2xx response whose body parses to
    [d], [queryFull] returns [d] itself (columns and rows untouched) and
    [query] returns [d.rows]; on a body that does not parse, on a non-2xx
    response and on a transport failure the two methods behave identically
    and throw the same error. *)
Theorem C3_query_is_rows_of_queryFull ds sql w :
  query ds sql w = (d <- queryFull ds sql ;; get_property d "rows") w ∧
  ∀ req s e',
    issued ds (OpQuery sql) = Some req →
    Dataset_fetch ds req (env w) = (s, e') →
    match fetched s with
    | Fulfilled res =>
        if ok res then
          match json res with
          | Fulfilled d =>
              (queryFull ds sql w).1 = Returns d ∧
              (query ds sql w).1 =
                match d with
                | VObj fields => Returns (own_property "rows" fields)
                | VNull | VUndefined => Throws (Foreign (TypeError "rows"))
                | _ => Returns VUndefined
                end
          | Rejected r =>
              query ds sql w = queryFull ds sql w ∧
              (query ds sql w).1 = Throws (Foreign r)
          end
        else
          query ds sql w = queryFull ds sql w ∧
          ∃ e, (query ds sql w).1 = Throws e
    | Rejected r =>
        query ds sql w = queryFull ds sql w ∧
        (query ds sql w).1 = Throws (Foreign r)
    end.
Proof.
  split.
  - destruct (ToString (token ds)) as [t |] eqn:Ht.
    + destruct (Dataset_fetch ds (issued_with ds t (OpQuery sql)) (env w))
        as [s e'] eqn:Hf.
      cbn in Hf. unfold query, queryFull, bind, interpolate. rewrite Ht.
      cbn -[Dataset_request]. erewrite Dataset_request_run by exact Hf. cbn.
      destruct (fetched s) as [res | r]; cbn; [| reflexivity].
      destruct (ok res); cbn.
      * destruct (json res) as [d | r]; cbn; reflexivity.
      * unfold Dataset_parseError, try_catch; cbn.
        destruct (json res) as [b | r]; cbn;
          destruct (res_status res =? 404); cbn; case_constructed; reflexivity.
    + unfold query, queryFull, bind, interpolate. rewrite Ht. reflexivity.
  - intros req s e' (t & Ht & ->)%issued_Some Hf.
    cbn in Hf. unfold query, queryFull, bind, interpolate. rewrite Ht.
    cbn -[Dataset_request]. erewrite Dataset_request_run by exact Hf. cbn.
    destruct (fetched s) as [res | r]; cbn; [| auto].
    destruct (ok res); cbn.
    + destruct (json res) as [d | r]; cbn; [| auto].
      destruct d; cbn; auto.
    + unfold Dataset_parseError, try_catch; cbn.
      destruct (json res) as [b | r]; cbn;
        destruct (res_status res =? 404); cbn; case_constructed; cbn; eauto.
Qed.

(** C4. When the upload gets a 2xx response whose body parses to [d], any
    handle that [upload] returns carries [d.token] as it is, next to the
    client's own base address, transport and timeout; and when [d] is an
    object, [upload] does return a handle. *)
Theorem C4_upload_returns_the_token_of_the_body c data nm opts w s e' res d :
  Client_fetch c (upload_request c data nm opts) (env w) = (s, e') →
  fetched s = Fulfilled res →
  ok res = true →
  json res = Fulfilled d →
  (∀ ds, (upload c data nm opts w).1 = Returns ds →
         token ds = optional_chain d "token" ∧
         Dataset_baseUrl ds = Client_baseUrl c ∧
         Dataset_fetch ds = Client_fetch c ∧
         Dataset_timeout ds = Client_timeout c) ∧
  (∀ fields, d = VObj fields →
         ∃ ds, (upload c data nm opts w).1 = Returns ds ∧
               token ds = own_property "token" fields).
Proof.
  intros Hf Hres Hok Hd. cbn in Hf.
  run_client Hf. rewrite Hres; cbn; rewrite Hok; cbn. rewrite Hd; cbn.
  split.
  - intros ds Hret. destruct d; cbn in Hret; inversion Hret; subst; cbn; auto.
  - intros fields ->. cbn. eexists; split; reflexivity.
Qed.

(** C5. A non-2xx response with status [s] makes [upload] throw a plain
    GagaraError with status [s], provided the body's [error] field converts
    to a string [text] (a string converts to itself; a missing field,
    [undefined] and [null] convert too). Its body is the parsed response
    body, or [undefined] when the body does not parse; its message is [text]
    unless the field is missing, [undefined] or [null], and then it is
    "Upload failed: " followed by [s] in decimal. *)
Theorem C5_upload_failure c data nm opts w s e' res text :
  Client_fetch c (upload_request c data nm opts) (env w) = (s, e') →
  fetched s = Fulfilled res →
  ok res = false →
  ToString (error_field res) = Some text →
  ∃ e, (upload c data nm opts w).1 = Throws (Gagara e) ∧
       class e = GagaraErrorClass ∧
       name e = "GagaraError" ∧
       status e = res_status res ∧
       body e = match json res with
                | Fulfilled b => b
                | Rejected _ => VUndefined
                end ∧
       message e = match optional_chain (body e) "error" with
                   | VUndefined | VNull => "Upload failed: " +:+ pretty (res_status res)
                   | _ => text
                   end ∧
       (∀ field, optional_chain (body e) "error" = VStr field → message e = field).
Proof.
  intros Hf Hres Hok Htext. cbn in Hf.
  unfold error_field, parsed_error in Htext.
  run_client Hf. rewrite Hres; cbn; rewrite Hok; cbn.
  unfold Client_parseError, try_catch; cbn.
  destruct (json res) as [b | r]; cbn.
  all: unfold throw_new, new_GagaraError.
  all: rewrite ?(Error_message_nullish _ _ _ Htext); cbn.
  all: eexists; split; [reflexivity |]; cbn; repeat split.
  - intros field Hfield. rewrite Hfield in Htext |- *. cbn in Htext. congruence.
  - discriminate.
Qed.

(** C6. [isPresent] has no 404 branch. When its request is answered with a
    non-2xx response, 404 included, it throws a plain GagaraError with
    message "Failed to check presence", the response's status and no body;
    on a 2xx response whose body is an object it returns the body's
    [isPresent] field. *)
Theorem C6_isPresent ds w req s e' res :
  issued ds OpIsPresent = Some req →
  Dataset_fetch ds req (env w) = (s, e') →
  fetched s = Fulfilled res →
  (ok res = false ∨ res_status res = 404 →
     (isPresent ds w).1 =
       Throws (Gagara {| class := GagaraErrorClass;
                         name := "GagaraError";
                         message := "Failed to check presence";
                         status := res_status res;
                         body := VUndefined |})) ∧
  (ok res = true →
     ∀ fields, json res = Fulfilled (VObj fields) →
       (isPresent ds w).1 = Returns (own_property "isPresent" fields)).
Proof.
  intros (t & Ht & ->)%issued_Some Hf Hres. cbn in Hf.
  run_dataset Ht Hf. rewrite Hres; cbn. split.
  - intros Hno. assert (Hok : ok res = false).
    { destruct Hno as [Hno | Hno]; [exact Hno | by apply ok_404]. }
    rewrite Hok. reflexivity.
  - intros Hok fields Hjson. rewrite Hok; cbn. rewrite Hjson. reflexivity.
Qed.

(** C7. [health] never throws: it returns a boolean, which is [true] exactly
    when the transport fulfils the request with a response whose status is
    in 200..299, and so [false] on a rejected request (network failure or
    abort after the timeout) and on any other status. *)
Theorem C7_health_is_total c w :
  ∃ b, (health c w).1 = Returns b ∧
       (b = true ↔
        ∃ res, fetched (Client_fetch c (health_request c) (env w)).1 = Fulfilled res ∧
               200 ≤ res_status res < 300).
Proof.
  destruct (Client_fetch c (health_request c) (env w)) as [s e'] eqn:Hf.
  cbn in Hf. run_client Hf.
  destruct (fetched s) as [res | r]; cbn.
  - exists (ok res). split; [reflexivity |]. rewrite ok_spec. split.
    + intros Hr. exists res. auto.
    + intros (res' & [= <-] & Hr). exact Hr.
  - exists false. split; [reflexivity |]. split; [discriminate |].
    intros (res' & [=] & _).
Qed.

(** C8. [fromToken(t)] is a plain function of the client and [t]: it takes
    no world, so it cannot reach the transport, and a computation that calls
    it and reads the token leaves the world, event log included, as it was.
    The handle it builds has token [t] and the client's base address,
    transport and timeout. *)
Theorem C8_fromToken c (t : string) :
  token (fromToken c t) = VStr t ∧
  ToString (token (fromToken c t)) = Some t ∧
  Dataset_baseUrl (fromToken c t) = Client_baseUrl c ∧
  Dataset_fetch (fromToken c t) = Client_fetch c ∧
  Dataset_timeout (fromToken c t) = Client_timeout c ∧
  ∀ w : World, (ds <- ret (fromToken c t) ;; ret (token ds)) w = (Returns (VStr t), w).
Proof. repeat split. Qed.

(** ** Timers *)

Lemma world_after_run o w req s e' :
  request_of o = Some req →
  transport_of o req (env w) = (s, e') →
  world_after o w = world_after_request (timeout_of o) req s e' w.
Proof.
  intros Hreq Hf.
  destruct o as [ds op | c data nm opts | c]; cbn in Hreq, Hf; unfold world_after.
  - apply issued_Some in Hreq as (t & Ht & ->).
    destruct op; run_dataset Ht Hf.
    all: destruct (fetched s) as [res | r]; cbn; [| reflexivity].
    all: destruct (ok res); cbn.
    all: unfold Dataset_parseError, try_catch; cbn.
    all: try destruct (json res) as [[] | r]; cbn.
    all: try destruct (res_status res =? 404); cbn.
    all: case_constructed; reflexivity.
  - injection Hreq as <-. run_client Hf.
    destruct (fetched s) as [res | r]; cbn; [| reflexivity].
    destruct (ok res); cbn.
    all: unfold Client_parseError, try_catch; cbn.
    all: destruct (json res) as [[] | r]; cbn.
    all: case_constructed; reflexivity.
  - injection Hreq as <-. run_client Hf.
    destruct (fetched s) as [res | r]; reflexivity.
Qed.

Lemma world_after_unconvertible o w :
  request_of o = None → world_after o w = w ∧ raised o w = Some (Foreign ConversionError).
Proof.
  destruct o as [ds op | c data nm opts | c]; cbn; [| discriminate | discriminate].
  unfold issued. destruct (ToString (token ds)) as [t |] eqn:Ht; [discriminate |].
  intros _. unfold raised, thrown.
  destruct op; run_unconvertible Ht; split; reflexivity.
Qed.

(** C9. Every operation that issues a request arms a timer with the
    configured timeout before it invokes the transport and clears it as its
    last step, whether the transport fulfilled the request with a 2xx
    response, with an error response, or rejected it: the event log grows by
    set-timeout, fetch, possibly the timer firing, and clear-timeout, in that
    order, and the set of pending timers after the call is the set before
    it. *)
Theorem C9_timer_is_scoped_to_the_call o w req :
  request_of o = Some req →
  timers_fresh w →
  timer_scoped (timeout_of o) req w (world_after o w).
Proof.
  intros Hreq Hfresh.
  destruct (transport_of o req (env w)) as [s e'] eqn:Hf.
  rewrite (world_after_run _ _ _ _ _ Hreq Hf).
  by apply world_after_request_scoped.
Qed.

(** ** The not-found error *)

(** C10. A DatasetNotFoundError caught from any operation (recognised by
    its class or by its name) comes from a token-scoped operation other than
    [isPresent] whose request got a 404 response; its status is 404, its
    message is "Dataset not found: " followed by the handle's token, and its
    body is [undefined] whatever the 404 response carried. *)
Theorem C10_shape_of_not_found o w e :
  raised o w = Some (Gagara e) →
  class e = DatasetNotFoundErrorClass ∨ name e = "DatasetNotFoundError" →
  ∃ ds op req res t,
    o = OnDataset ds op ∧ op ≠ OpIsPresent ∧
    issued ds op = Some req ∧
    fetched (Dataset_fetch ds req (env w)).1 = Fulfilled res ∧
    res_status res = 404 ∧
    class e = DatasetNotFoundErrorClass ∧
    name e = "DatasetNotFoundError" ∧
    status e = 404 ∧
    ToString (token ds) = Some t ∧
    message e = "Dataset not found: " +:+ t ∧
    body e = VUndefined.
Proof.
  intros Hraised Hclass.
  destruct o as [ds op | c data nm opts | c]; unfold raised, thrown in Hraised.
  - destruct (ToString (token ds)) as [t |] eqn:Ht.
    2: { revert Hraised. destruct op; run_unconvertible Ht; discriminate. }
    destruct (Dataset_fetch ds (issued_with ds t op) (env w)) as [s e'] eqn:Hf.
    exists ds, op, (issued_with ds t op). unfold issued. rewrite Ht, Hf. cbn [fst].
    destruct op; revert Hraised; cbn in Hf; run_dataset Ht Hf.
    all: destruct (fetched s) as [res | r]; cbn; [| discriminate].
    all: rewrite ?(new_DatasetNotFoundError_converted _ _ Ht).
    all: destruct (Z.eqb_spec (res_status res) 404) as [E | E].
    all: destruct (ok res); cbn.
    all: unfold Dataset_parseError, try_catch; cbn.
    all: try destruct (json res) as [[] | r]; cbn; try discriminate.
    all: case_constructed; cbn.
    all: intros [= <-]; constructed_shapes; cbn in Hclass.
    all: try (destruct Hclass as [Hc | Hc]; congruence).
    all: exists res, t; repeat split; try assumption; discriminate.
  - revert Hraised. destruct (Client_fetch c (upload_request c data nm opts) (env w))
      as [s e'] eqn:Hf. cbn in Hf. run_client Hf.
    destruct (fetched s) as [res | r]; cbn; [| discriminate].
    destruct (ok res); cbn.
    all: unfold Client_parseError, try_catch; cbn.
    all: destruct (json res) as [[] | r]; cbn; try discriminate.
    all: case_constructed; cbn.
    all: intros [= <-]; constructed_shapes; cbn in Hclass.
    all: destruct Hclass as [Hc | Hc]; congruence.
  - revert Hraised. destruct (Client_fetch c (health_request c) (env w))
      as [s e'] eqn:Hf. cbn in Hf. run_client Hf.
    destruct (fetched s) as [res | r]; discriminate.
Qed.

(** * Further properties of the code *)

(** ** The constructor's base address ([client.ts], constructor) *)

Fixpoint ends_with_slash (s : string) : bool :=
  match s with
  | EmptyString => false
  | String c EmptyString => Ascii.eqb c "/"%char
  | String _ rest => ends_with_slash rest
  end.

Lemma append_empty (t : string) : EmptyString +:+ t = t.
Proof. reflexivity. Qed.

Lemma append_String c (s t : string) : String c s +:+ t = String c (s +:+ t).
Proof. reflexivity. Qed.

Lemma ends_with_slash_spec (s : string) :
  ends_with_slash s = true ↔ ∃ p, s = p +:+ "/".
Proof.
  induction s as [| c s IH].
  - split; [discriminate |]. intros ([| c p] & Hp); discriminate.
  - destruct s as [| c' s'].
    + cbn. rewrite Ascii.eqb_eq. split.
      * intros ->. by exists EmptyString.
      * intros ([| c1 [| c2 p]] & Hp);
          rewrite ?append_String, ?append_empty in Hp; congruence.
    + change (ends_with_slash (String c (String c' s')))
        with (ends_with_slash (String c' s')).
      rewrite IH. split.
      * intros (p & Hp). exists (String c p). rewrite append_String. by rewrite Hp.
      * intros ([| c1 p] & Hp); rewrite ?append_String, ?append_empty in Hp;
          [discriminate |].
        exists p. congruence.
Qed.

Lemma strip_trailing_slash_unchanged (s : string) :
  ends_with_slash s = false → strip_trailing_slash s = s.
Proof.
  induction s as [| c s IH]; [reflexivity |].
  destruct s as [| c' s'].
  - cbn. by intros ->.
  - intros Hs.
    change (strip_trailing_slash (String c (String c' s')))
      with (String c (strip_trailing_slash (String c' s'))).
    f_equal. by apply IH.
Qed.

Lemma strip_trailing_slash_appended (s : string) :
  strip_trailing_slash (s +:+ "/") = s.
Proof.
  induction s as [| c s IH]; [reflexivity |].
  destruct s as [| c' s']; [reflexivity |].
  change (strip_trailing_slash (String c (String c' s') +:+ "/"))
    with (String c (strip_trailing_slash (String c' s' +:+ "/"))).
  by rewrite IH.
Qed.

Lemma append_assoc (s t u : string) : (s +:+ t) +:+ u = s +:+ (t +:+ u).
Proof.
  induction s as [| c s IH]; [reflexivity |].
  rewrite !append_String. by rewrite IH.
Qed.

(** X1. Stripping drops exactly one trailing slash: an address followed by
    "/" is stored as the address, whatever the address is, so that one
    followed by two slashes keeps the first of them; and the stored address
    followed by "/" is the given one whenever the given one ends in a
    slash. *)
Theorem X1_strip_drops_exactly_one_slash (s : string) :
  strip_trailing_slash (s +:+ "/") = s ∧
  strip_trailing_slash (s +:+ "//") = s +:+ "/" ∧
  (ends_with_slash s = true → strip_trailing_slash s +:+ "/" = s).
Proof.
  split; [apply strip_trailing_slash_appended | split].
  - change "//" with ("/" +:+ "/"). rewrite <- append_assoc.
    apply strip_trailing_slash_appended.
  - intros (p & ->)%ends_with_slash_spec.
    by rewrite strip_trailing_slash_appended.
Qed.

(** X2. A base address without a trailing slash and the same address with
    one configure the same client, whose stored base address is the one
    without; [fetch] and [timeout] do not matter for this. *)
Theorem X2_client_ignores_one_trailing_slash (b : string) f t :
  ends_with_slash b = false →
  new_GagaraClient {| options_baseUrl := b +:+ "/"; options_fetch := f; options_timeout := t |}
  = new_GagaraClient {| options_baseUrl := b; options_fetch := f; options_timeout := t |}
  ∧ Client_baseUrl
      (new_GagaraClient {| options_baseUrl := b; options_fetch := f; options_timeout := t |})
    = b.
Proof.
  intros Hb. unfold new_GagaraClient. cbn.
  rewrite strip_trailing_slash_appended, (strip_trailing_slash_unchanged b Hb).
  split; reflexivity.
Qed.

(** ** Which outcome comes from which answer *)

Definition class_name (c : error_class) : string :=
  match c with
  | GagaraErrorClass => "GagaraError"
  | DatasetNotFoundErrorClass => "DatasetNotFoundError"
  | QueryErrorClass => "QueryError"
  end.

(** Whether the method calls [res.json()] on a 2xx response. *)
Definition reads_body (o : operation) : bool :=
  match o with
  | OnDataset _ (OpRename _) | OnDataset _ OpDelete | Health _ => false
  | _ => true
  end.

Lemma own_property_missing k (fields : list (string * value)) :
  k ∉ fields.*1 → own_property k fields = VUndefined.
Proof.
  induction fields as [| [k' v] fields IH]; [reflexivity |].
  cbn. intros Hk. destruct (String.eqb_spec k k') as [-> | Hne].
  - exfalso. apply Hk. left.
  - apply IH. intros Hin. apply Hk. by right.
Qed.

(** X3. When the transport rejects the request, every operation but
    [health] lets the rejection reach the caller as it is: it is not turned
    into one of the client's errors and not swallowed. [health] alone
    catches it. *)
Theorem X3_transport_failure_reaches_the_caller o w req s e' r :
  request_of o = Some req →
  transport_of o req (env w) = (s, e') →
  fetched s = Rejected r →
  raised o w = match o with
               | Health _ => None
               | _ => Some (Foreign r)
               end.
Proof.
  intros Hreq Hf Hrej.
  destruct o as [ds op | c data nm opts | c]; cbn in Hreq, Hf; unfold raised, thrown.
  - apply issued_Some in Hreq as (t & Ht & ->).
    destruct op; run_dataset Ht Hf; rewrite Hrej; reflexivity.
  - injection Hreq as <-. run_client Hf. rewrite Hrej. reflexivity.
  - injection Hreq as <-. run_client Hf. rewrite Hrej. reflexivity.
Qed.

(** X4. The client's own errors only ever answer a non-2xx response: if an
    operation throws a GagaraError (of any class), its request was sent and
    the transport fulfilled it with a response that is not 2xx. The error's
    name is the name of its class, and it is a QueryError exactly when the
    operation is [query] or [queryFull] and the status is not 404. *)
Theorem X4_client_errors_come_from_error_responses o w e :
  raised o w = Some (Gagara e) →
  ∃ req res,
    request_of o = Some req ∧
    fetched (transport_of o req (env w)).1 = Fulfilled res ∧
    ok res = false ∧
    name e = class_name (class e) ∧
    (class e = QueryErrorClass ↔
     is_query_operation o = true ∧ res_status res ≠ 404).
Proof.
  intros Hraised.
  destruct o as [ds op | c data nm opts | c]; unfold raised, thrown in Hraised.
  - destruct (ToString (token ds)) as [t |] eqn:Ht.
    2: { revert Hraised. destruct op; run_unconvertible Ht; discriminate. }
    destruct (Dataset_fetch ds (issued_with ds t op) (env w)) as [s e'] eqn:Hf.
    exists (issued_with ds t op). cbn. unfold issued. rewrite Ht, Hf. cbn [fst].
    destruct op; revert Hraised; cbn in Hf; run_dataset Ht Hf.
    all: destruct (fetched s) as [res | r]; cbn; [| discriminate].
    all: rewrite ?(new_DatasetNotFoundError_converted _ _ Ht).
    all: destruct (Z.eqb_spec (res_status res) 404) as [E | E].
    all: destruct (ok res) eqn:Hok; cbn.
    all: unfold Dataset_parseError, try_catch; cbn.
    all: try destruct (json res) as [[] | r]; cbn; try discriminate.
    all: case_constructed; cbn.
    all: intros [= <-]; constructed_shapes; exists res; cbn.
    all: repeat split; try assumption; try reflexivity.
    all: first [discriminate | tauto | congruence | intros [? ?]; congruence
               | match goal with
                 | Hc : class ?g = _, Hn : name ?g = _ |- _ => by rewrite Hc, Hn
                 end].
  - destruct (Client_fetch c (upload_request c data nm opts) (env w))
      as [s e'] eqn:Hf.
    exists (upload_request c data nm opts). cbn. rewrite Hf. cbn [fst].
    revert Hraised. cbn in Hf. run_client Hf.
    destruct (fetched s) as [res | r]; cbn; [| discriminate].
    destruct (ok res) eqn:Hok; cbn.
    all: unfold Client_parseError, try_catch; cbn.
    all: destruct (json res) as [[] | r]; cbn; try discriminate.
    all: case_constructed; cbn.
    all: intros [= <-]; constructed_shapes; exists res; cbn.
    all: repeat split; try assumption; try reflexivity.
    all: first [discriminate | tauto | congruence | intros [? ?]; congruence
               | match goal with
                 | Hc : class ?g = _, Hn : name ?g = _ |- _ => by rewrite Hc, Hn
                 end].
  - revert Hraised. destruct (Client_fetch c (health_request c) (env w))
      as [s e'] eqn:Hf. cbn in Hf. run_client Hf.
    destruct (fetched s) as [res | r]; discriminate.
Qed.

(** X5. No operation reports success on an error response: when a
    token-scoped operation or [upload] returns, its request was sent and the
    transport fulfilled it with a 2xx response. Only [health] returns
    otherwise. *)
Theorem X5_success_needs_2xx o w :
  raised o w = None →
  (∃ req res, request_of o = Some req ∧
              fetched (transport_of o req (env w)).1 = Fulfilled res ∧
              ok res = true)
  ∨ (∃ c, o = Health c).
Proof.
  intros Hnone.
  destruct o as [ds op | c data nm opts | c]; unfold raised, thrown in Hnone;
    [left | left | right; by exists c].
  - destruct (ToString (token ds)) as [t |] eqn:Ht.
    2: { revert Hnone. destruct op; run_unconvertible Ht; discriminate. }
    destruct (Dataset_fetch ds (issued_with ds t op) (env w)) as [s e'] eqn:Hf.
    exists (issued_with ds t op). cbn. unfold issued. rewrite Ht, Hf. cbn [fst].
    destruct op; revert Hnone; cbn in Hf; run_dataset Ht Hf.
    all: destruct (fetched s) as [res | r]; cbn; [| discriminate].
    all: destruct (ok res) eqn:Hok; cbn; [intros _; by exists res |].
    all: unfold Dataset_parseError, try_catch; cbn.
    all: try destruct (json res) as [[] | r]; cbn.
    all: try destruct (res_status res =? 404); cbn.
    all: case_constructed; discriminate.
  - destruct (Client_fetch c (upload_request c data nm opts) (env w))
      as [s e'] eqn:Hf.
    exists (upload_request c data nm opts). cbn. rewrite Hf. cbn [fst].
    revert Hnone. cbn in Hf. run_client Hf.
    destruct (fetched s) as [res | r]; cbn; [| discriminate].
    destruct (ok res) eqn:Hok; cbn; [intros _; by exists res |].
    unfold Client_parseError, try_catch; cbn.
    destruct (json res) as [[] | r]; cbn; case_constructed; discriminate.
Qed.

(** X6. For a non-2xx, non-404 response whose [error] field converts to a
    string [text], the QueryError of [query] and [queryFull] carries the
    parsed response body, or [undefined] when the body does not parse; its
    message is [text] (the field itself when it is a string) unless the field
    is missing, [undefined] or [null], and then it is "Query failed". *)
Theorem X6_query_error_message_and_body ds op w req s e' res text :
  is_query op = true →
  issued ds op = Some req →
  Dataset_fetch ds req (env w) = (s, e') →
  fetched s = Fulfilled res →
  ok res = false →
  res_status res ≠ 404 →
  ToString (error_field res) = Some text →
  ∃ e, (perform ds op w).1 = Throws (Gagara e) ∧
       class e = QueryErrorClass ∧
       body e = match json res with
                | Fulfilled b => b
                | Rejected _ => VUndefined
                end ∧
       message e = match optional_chain (body e) "error" with
                   | VUndefined | VNull => "Query failed"
                   | _ => text
                   end ∧
       (∀ field, optional_chain (body e) "error" = VStr field → message e = field).
Proof.
  intros Hq (t & Ht & ->)%issued_Some Hf Hres Hok H404 Htext.
  unfold error_field, parsed_error in Htext.
  destruct op; try discriminate Hq; run_dataset Ht Hf; rewrite Hres; cbn; rewrite Hok; cbn.
  all: unfold Dataset_parseError, try_catch; cbn.
  all: destruct (json res) as [b | r]; cbn.
  all: destruct (Z.eqb_spec (res_status res) 404) as [E | E]; [contradiction |]; cbn.
  all: unfold throw_new, new_QueryError, new_GagaraError.
  all: rewrite ?(Error_message_nullish _ _ _ Htext); cbn.
  all: eexists; split; [reflexivity |]; cbn; repeat split.
  all: try discriminate.
  all: intros field Hfield; rewrite Hfield in Htext |- *; cbn in Htext; congruence.
Qed.

(** X7. [schema], [meta], [isPresent], [rename] and [delete] never look at
    the body of an error response: on a non-2xx status other than 404 each
    throws a plain GagaraError with its own fixed message, the response's
    status and no body, whatever the response carried. *)
Theorem X7_plain_errors_ignore_the_body ds op w req s e' res :
  is_query op = false →
  issued ds op = Some req →
  Dataset_fetch ds req (env w) = (s, e') →
  fetched s = Fulfilled res →
  ok res = false →
  res_status res ≠ 404 →
  (perform ds op w).1 =
    Throws (Gagara {| class := GagaraErrorClass;
                      name := "GagaraError";
                      message := match op with
                                 | OpSchema => "Failed to get schema"
                                 | OpMeta => "Failed to get metadata"
                                 | OpIsPresent => "Failed to check presence"
                                 | OpRename _ => "Failed to rename"
                                 | _ => "Failed to delete"
                                 end;
                      status := res_status res;
                      body := VUndefined |}).
Proof.
  intros Hq (t & Ht & ->)%issued_Some Hf Hres Hok H404.
  destruct op; try discriminate Hq; run_dataset Ht Hf; rewrite Hres; cbn; rewrite Hok; cbn.
  all: try (destruct (Z.eqb_spec (res_status res) 404) as [E | E]; [contradiction |]).
  all: reflexivity.
Qed.

(** X8. [rename], [delete] and [health] do not read the body of a 2xx
    response: once the request is answered with one they succeed whatever
    the body is, an empty or non-JSON one (a 204) included. *)
Theorem X8_no_body_needed_on_success o w req s e' res :
  reads_body o = false →
  request_of o = Some req →
  transport_of o req (env w) = (s, e') →
  fetched s = Fulfilled res →
  ok res = true →
  raised o w = None ∧
  (∀ ds op, o = OnDataset ds op → (perform ds op w).1 = Returns VUndefined) ∧
  (∀ c, o = Health c → (health c w).1 = Returns true).
Proof.
  intros Hrb Hreq Hf Hres Hok.
  destruct o as [ds op | c data nm opts | c]; cbn in Hreq, Hf.
  - apply issued_Some in Hreq as (t & Ht & ->).
    assert (Hp : (perform ds op w).1 = Returns VUndefined).
    { destruct op; try discriminate Hrb; run_dataset Ht Hf; rewrite Hres; cbn;
        rewrite Hok; reflexivity. }
    split; [| split; [| discriminate]].
    + unfold raised, thrown. by rewrite Hp.
    + by intros ds' op' [= <- <-].
  - discriminate Hrb.
  - injection Hreq as <-.
    assert (Hp : (health c w).1 = Returns true).
    { run_client Hf. rewrite Hres; cbn; rewrite Hok. reflexivity. }
    split; [| split; [discriminate |]].
    + unfold raised, thrown. by rewrite Hp.
    + by intros c' [= <-].
Qed.

(** X9. The other operations need the body: when the request is answered
    with a 2xx response whose body does not parse, [query], [queryFull],
    [schema], [meta], [isPresent] and [upload] throw what [res.json()]
    rejected with, as it is. *)
Theorem X9_unparsable_success_body o w req s e' res r :
  reads_body o = true →
  request_of o = Some req →
  transport_of o req (env w) = (s, e') →
  fetched s = Fulfilled res →
  ok res = true →
  json res = Rejected r →
  raised o w = Some (Foreign r).
Proof.
  intros Hrb Hreq Hf Hres Hok Hjson.
  destruct o as [ds op | c data nm opts | c]; cbn in Hreq, Hf; unfold raised, thrown.
  - apply issued_Some in Hreq as (t & Ht & ->).
    destruct op; try discriminate Hrb; run_dataset Ht Hf; rewrite Hres; cbn;
      rewrite Hok; cbn; rewrite Hjson; reflexivity.
  - injection Hreq as <-.
    run_client Hf. rewrite Hres; cbn; rewrite Hok; cbn. rewrite Hjson. reflexivity.
  - discriminate Hrb.
Qed.

(** X10. On a 2xx response whose body parses: [meta] returns the body as it
    is, and [schema] the [columns] field of an object body. When the body is
    JSON [null], the methods that project a field ([query], [schema],
    [isPresent]) throw a TypeError for that field, while [queryFull] and
    [meta] return [null] and [rename] and [delete] are not affected. *)
Theorem X10_schema_meta_and_null_bodies ds op w req s e' res d :
  issued ds op = Some req →
  Dataset_fetch ds req (env w) = (s, e') →
  fetched s = Fulfilled res →
  ok res = true →
  json res = Fulfilled d →
  (op = OpMeta → (perform ds op w).1 = Returns d) ∧
  (op = OpSchema → ∀ fields, d = VObj fields →
     (perform ds op w).1 = Returns (own_property "columns" fields)) ∧
  (d = VNull →
     (perform ds op w).1 =
       match op with
       | OpQuery _ => Throws (Foreign (TypeError "rows"))
       | OpSchema => Throws (Foreign (TypeError "columns"))
       | OpIsPresent => Throws (Foreign (TypeError "isPresent"))
       | OpQueryFull _ | OpMeta => Returns VNull
       | OpRename _ | OpDelete => Returns VUndefined
       end).
Proof.
  intros (t & Ht & ->)%issued_Some Hf Hres Hok Hjson.
  destruct op; run_dataset Ht Hf; rewrite Hres; cbn; rewrite Hok; cbn;
    rewrite ?Hjson; cbn.
  all: split; [| split]; try discriminate; try reflexivity.
  all: try (intros _ fields ->; reflexivity).
  all: intros ->; reflexivity.
Qed.

(** X11. A 2xx upload response whose body is an object without a [token]
    key still yields a handle: its token is [undefined], and the requests
    made through it address "/catalog/undefined/..." and send
    "Bearer undefined". *)
Theorem X11_upload_without_token_key c data nm opts w s e' res fields :
  Client_fetch c (upload_request c data nm opts) (env w) = (s, e') →
  fetched s = Fulfilled res →
  ok res = true →
  json res = Fulfilled (VObj fields) →
  "token" ∉ fields.*1 →
  ∃ ds, (upload c data nm opts w).1 = Returns ds ∧
        token ds = VUndefined ∧
        (∃ req, issued ds OpSchema = Some req ∧
                url req = Client_baseUrl c +:+ "/catalog/undefined/schema") ∧
        ∀ sql, ∃ req, issued ds (OpQuery sql) = Some req ∧
                      headers (init req)
                      = [("Content-Type", "application/json");
                         ("Authorization", "Bearer undefined")].
Proof.
  intros Hf Hres Hok Hjson Hmissing. cbn in Hf.
  run_client Hf. rewrite Hres; cbn; rewrite Hok; cbn. rewrite Hjson; cbn.
  rewrite (own_property_missing _ _ Hmissing).
  eexists; split; [reflexivity |]. cbn. repeat split.
  - eexists; split; reflexivity.
  - intros sql. eexists; split; reflexivity.
Qed.

(** ** Calls one after the other *)

(** [await o1; await o2; ...], each call starting in the world the one
    before it left, whether that one returned or threw (the caller caught). *)
Definition run_all (ops : list operation) (w : World) : World :=
  fold_left (λ w' o, world_after o w') ops w.

Fixpoint fetches (l : list event) : nat :=
  match l with
  | [] => 0%nat
  | EvFetch _ _ :: rest => S (fetches rest)
  | _ :: rest => fetches rest
  end.

(** How many of the operations get as far as a request: all but those on a
    handle whose token does not convert to a string. *)
Fixpoint requests_built (ops : list operation) : nat :=
  match ops with
  | [] => 0%nat
  | o :: rest =>
      (match request_of o with Some _ => 1 | None => 0 end + requests_built rest)%nat
  end.

Lemma fetches_app (l1 l2 : list event) :
  fetches (l1 ++ l2) = (fetches l1 + fetches l2)%nat.
Proof.
  induction l1 as [| ev l1 IH]; [reflexivity |].
  destruct ev; cbn; rewrite IH; reflexivity.
Qed.

Lemma world_after_shape o w :
  world_after o w
  = match request_of o with
    | Some req =>
        world_after_request (timeout_of o) req
          (transport_of o req (env w)).1 (transport_of o req (env w)).2 w
    | None => w
    end.
Proof.
  destruct (request_of o) as [req |] eqn:Hreq.
  - destruct (transport_of o req (env w)) as [s e'] eqn:Hf.
    by apply world_after_run.
  - by apply world_after_unconvertible.
Qed.

Lemma world_after_request_fetches t req s e' w :
  fetches (log (world_after_request t req s e' w)) = S (fetches (log w)).
Proof.
  unfold world_after_request. cbn.
  destruct (timer_fired s); rewrite !fetches_app; cbn; lia.
Qed.

(** X12. Any number of calls made one after the other, whatever each one's
    outcome: from a world whose timers are fresh, the set of pending timers
    at the end is the set at the start, and the transport was invoked, under
    a timer identifier of its own, exactly once for every call that got as
    far as a request — nothing is retried, nothing is skipped after a
    failure, and never more than one invocation per call. *)
Theorem X12_calls_in_sequence ops w :
  timers_fresh w →
  pending (run_all ops w) = pending w ∧
  timers_fresh (run_all ops w) ∧
  next_timer (run_all ops w) = (next_timer w + requests_built ops)%nat ∧
  fetches (log (run_all ops w)) = (fetches (log w) + requests_built ops)%nat ∧
  (requests_built ops ≤ length ops)%nat.
Proof.
  revert w. induction ops as [| o ops IH]; intros w Hfresh.
  - cbn. repeat split; [exact Hfresh | lia | lia | lia].
  - cbn [run_all fold_left]. fold (run_all ops (world_after o w)).
    cbn [requests_built length]. rewrite world_after_shape.
    destruct (request_of o) as [req |].
    + pose proof (world_after_request_scoped (timeout_of o) req
                    (transport_of o req (env w)).1
                    (transport_of o req (env w)).2 w Hfresh)
        as (Hpend & Hfresh' & Hnext & _).
      destruct (IH _ Hfresh') as (IHp & IHf & IHn & IHc & IHl).
      rewrite IHp, IHn, IHc, Hpend, Hnext, world_after_request_fetches.
      repeat split; first [exact IHf | lia].
    + destruct (IH _ Hfresh) as (IHp & IHf & IHn & IHc & IHl).
      rewrite IHp, IHn, IHc.
      repeat split; first [exact IHf | lia].
Qed.

(** X13. From any world at all, a call that gets as far as a request steps
    the transport's state exactly once, uses the next timer identifier, and
    leaves that identifier out of the pending set; a call that does not
    leaves the world as it is. Either way what is pending afterwards was
    pending before. *)
Theorem X13_one_step_of_the_world o w :
  match request_of o with
  | Some req =>
      env (world_after o w) = (transport_of o req (env w)).2 ∧
      next_timer (world_after o w) = S (next_timer w) ∧
      pending (world_after o w) = pending w ∖ {[next_timer w]}
  | None => world_after o w = w
  end ∧
  pending (world_after o w) ⊆ pending w.
Proof.
  rewrite world_after_shape. destruct (request_of o) as [req |].
  - unfold world_after_request. cbn.
    repeat split; destruct (timer_fired _); set_solver.
  - split; first [reflexivity | set_solver].
Qed.

(** X14. The token comes back to the server as it came from it: after an
    upload answered with 2xx and an object body whose [token] field converts
    to the string [t] (a string converts to itself), a [query] on the
    returned handle sends one request, to the client's base address followed
    by "/query", whose Authorization header is "Bearer " followed by [t],
    under a fresh timer with the client's timeout. *)
Theorem X14_uploaded_token_is_the_bearer c data nm opts w s e' res fields t sql :
  Client_fetch c (upload_request c data nm opts) (env w) = (s, e') →
  fetched s = Fulfilled res →
  ok res = true →
  json res = Fulfilled (VObj fields) →
  ToString (own_property "token" fields) = Some t →
  ∃ ds fired,
    (upload c data nm opts w).1 = Returns ds ∧
    log (query ds sql (upload c data nm opts w).2).2
    = (log (upload c data nm opts w).2
       ++ [EvSetTimeout (S (next_timer w)) (Client_timeout c);
           EvFetch
             {| url := Client_baseUrl c +:+ "/query";
                init := {| method := Some "POST";
                           headers := [("Content-Type", "application/json");
                                       ("Authorization", "Bearer " +:+ t)];
                           req_body := Some (BodyJson (VObj [("sql", VStr sql)])) |} |}
             (S (next_timer w))]
       ++ (if fired : bool then [EvTimerFired (S (next_timer w))] else [])
       ++ [EvClearTimeout (S (next_timer w))])%list.
Proof.
  intros Hf Hres Hok Hjson Ht.
  pose proof (world_after_run (Upload c data nm opts) w _ s e' eq_refl Hf) as Hw.
  cbn in Hw. cbn in Hf.
  assert (Hup : (upload c data nm opts w).1
                = Returns {| token := own_property "token" fields;
                             Dataset_baseUrl := Client_baseUrl c;
                             Dataset_fetch := Client_fetch c;
                             Dataset_timeout := Client_timeout c |}).
  { run_client Hf. rewrite Hres; cbn; rewrite Hok; cbn. rewrite Hjson. reflexivity. }
  eexists.
  exists (timer_fired
            (Client_fetch c
               (issued_with
                  {| token := own_property "token" fields;
                     Dataset_baseUrl := Client_baseUrl c;
                     Dataset_fetch := Client_fetch c;
                     Dataset_timeout := Client_timeout c |} t (OpQuery sql))
               e').1).
  split; [exact Hup |].
  rewrite Hw.
  match goal with
  | |- log (query ?ds sql ?w1).2 = _ =>
      change (query ds sql w1).2 with (world_after (OnDataset ds (OpQuery sql)) w1);
      rewrite (world_after_shape (OnDataset ds (OpQuery sql)) w1)
  end.
  cbn [request_of]. unfold issued. cbn [token]. rewrite Ht.
  unfold world_after_request at 1. cbn.
  destruct (timer_fired _); cbn; rewrite <- ?app_assoc; reflexivity.
Qed.

(** ** Composition *)

Lemma world_after_log o w req :
  request_of o = Some req →
  log (world_after o w)
  = (log w
     ++ [EvSetTimeout (next_timer w) (timeout_of o);
         EvFetch req (next_timer w)]
     ++ (if timer_fired (transport_of o req (env w)).1
         then [EvTimerFired (next_timer w)] else [])
     ++ [EvClearTimeout (next_timer w)])%list.
Proof.
  intros Hreq. rewrite world_after_shape, Hreq. unfold world_after_request. cbn.
  destruct (timer_fired _); cbn; rewrite <- ?app_assoc; reflexivity.
Qed.

Lemma perform_on_404 ds op w t s e' res :
  op ≠ OpIsPresent →
  ToString (token ds) = Some t →
  Dataset_fetch ds (issued_with ds t op) (env w) = (s, e') →
  fetched s = Fulfilled res →
  res_status res = 404 →
  (perform ds op w).1 =
    Throws (Gagara {| class := DatasetNotFoundErrorClass;
                      name := "DatasetNotFoundError";
                      message := "Dataset not found: " +:+ t;
                      status := 404;
                      body := VUndefined |}).
Proof.
  intros Hop Ht Hf Hres H404. pose proof (ok_404 res H404) as Hok.
  destruct op; try congruence; cbn in Hf; run_dataset Ht Hf; rewrite Hres; cbn;
    rewrite Hok; cbn.
  all: unfold Dataset_parseError, try_catch; cbn.
  all: try destruct (json res) as [b | r]; cbn.
  all: rewrite H404; cbn.
  all: rewrite (new_DatasetNotFoundError_converted _ _ Ht); reflexivity.
Qed.

(** X15. [query] and [queryFull] cannot be told apart from outside: for the
    same SQL they send the same request and leave the same world (network
    state, timers, event log); they differ only in what they hand back. *)
Theorem X15_query_and_queryFull_same_effects ds sql w :
  request_of (OnDataset ds (OpQuery sql)) = request_of (OnDataset ds (OpQueryFull sql)) ∧
  (query ds sql w).2 = (queryFull ds sql w).2.
Proof.
  split; [reflexivity |].
  change ((query ds sql w).2) with (world_after (OnDataset ds (OpQuery sql)) w).
  change ((queryFull ds sql w).2) with (world_after (OnDataset ds (OpQueryFull sql)) w).
  rewrite !world_after_shape. reflexivity.
Qed.

(** A call made through client [c]: on [c] itself or on a handle obtained
    with [fromToken]. *)
Definition made_through (c : GagaraClient) (o : operation) : Prop :=
  match o with
  | OnDataset ds _ => ∃ t, ds = fromToken c t
  | Upload c' _ _ _ | Health c' => c' = c
  end.

(** X16. The options given to the constructor govern every call made
    through the client, on the client or on a handle from [fromToken]: the
    timer is armed with the given timeout, 30000 ms when none is given; the
    transport invoked is the given one, the platform's when none is given;
    and a request is sent, to an address that starts with the base address
    less its trailing slash. *)
Theorem X16_options_govern_every_call options o w :
  made_through (new_GagaraClient options) o →
  (∃ rest, log (world_after o w)
           = (log w ++ EvSetTimeout (next_timer w)
                         (default 30000 (options_timeout options)) :: rest)%list) ∧
  transport_of o = default global_fetch (options_fetch options) ∧
  ∃ req path, request_of o = Some req ∧
              url req = strip_trailing_slash (options_baseUrl options) +:+ path.
Proof.
  intros Hmade.
  assert (Hreq : ∃ req path, request_of o = Some req ∧
            url req = strip_trailing_slash (options_baseUrl options) +:+ path).
  { destruct o as [ds op | c data nm opts | c]; cbn in Hmade.
    - destruct Hmade as (t & ->). destruct op; eexists; eexists; split; reflexivity.
    - subst c. eexists; eexists; split; reflexivity.
    - subst c. eexists; eexists; split; reflexivity. }
  split; [| split; [| exact Hreq]].
  - destruct Hreq as (req & _ & Hreq & _).
    rewrite (world_after_log _ _ _ Hreq). eexists.
    destruct o as [ds op | c data nm opts | c]; cbn in Hmade.
    + destruct Hmade as (t & ->). reflexivity.
    + subst c. reflexivity.
    + subst c. reflexivity.
  - destruct o as [ds op | c data nm opts | c]; cbn in Hmade.
    + destruct Hmade as (t & ->). reflexivity.
    + subst c. reflexivity.
    + subst c. reflexivity.
Qed.

(** X17. A handle outlives [delete]: nothing is invalidated locally. When
    the server answers the DELETE with 2xx, and then, in the state that left
    it in, answers the handle's next request with 404, [delete] returns and
    the next operation (any but [isPresent]) is sent all the same and throws
    the DatasetNotFoundError for the handle's token; two requests were sent
    in all. The handle's token converts to the string [t]. *)
Theorem X17_after_delete ds op w t s1 e1 res1 s2 e2 res2 :
  ToString (token ds) = Some t →
  Dataset_fetch ds (issued_with ds t OpDelete) (env w) = (s1, e1) →
  fetched s1 = Fulfilled res1 →
  ok res1 = true →
  op ≠ OpIsPresent →
  Dataset_fetch ds (issued_with ds t op) e1 = (s2, e2) →
  fetched s2 = Fulfilled res2 →
  res_status res2 = 404 →
  (Dataset_delete ds w).1 = Returns tt ∧
  (perform ds op (Dataset_delete ds w).2).1
    = Throws (Gagara {| class := DatasetNotFoundErrorClass;
                        name := "DatasetNotFoundError";
                        message := "Dataset not found: " +:+ t;
                        status := 404;
                        body := VUndefined |}) ∧
  fetches (log (perform ds op (Dataset_delete ds w).2).2) = S (S (fetches (log w))).
Proof.
  intros Ht Hf1 Hres1 Hok1 Hop Hf2 Hres2 H404.
  assert (Hi : ∀ op', request_of (OnDataset ds op') = Some (issued_with ds t op')).
  { intros op'. cbn. unfold issued. by rewrite Ht. }
  assert (Hw : (Dataset_delete ds w).2 = world_after (OnDataset ds OpDelete) w).
  { cbn. unfold bind. destruct (Dataset_delete ds w) as [[[] | e] w']; reflexivity. }
  assert (Hw1 : (Dataset_delete ds w).2
                = world_after_request (Dataset_timeout ds) (issued_with ds t OpDelete)
                    s1 e1 w).
  { rewrite Hw. by apply world_after_run. }
  split; [| split].
  - cbn in Hf1. unfold Dataset_delete, bind, interpolate. rewrite Ht.
    cbn -[Dataset_request]. erewrite Dataset_request_run by exact Hf1. cbn.
    rewrite Hres1; cbn. rewrite Hok1. reflexivity.
  - apply (perform_on_404 ds op _ t s2 e2 res2 Hop Ht); [| exact Hres2 | exact H404].
    rewrite Hw1. exact Hf2.
  - change ((perform ds op (Dataset_delete ds w).2).2)
      with (world_after (OnDataset ds op) (Dataset_delete ds w).2).
    rewrite world_after_shape, (Hi op), world_after_request_fetches.
    rewrite Hw1, world_after_request_fetches. reflexivity.
Qed.

(** ** Values that do not convert to a string *)

(** X18. When the [error] field of a non-2xx response does not convert to a
    string (an object with an own [toString] key, or an array holding one),
    [upload], and [query] and [queryFull] on a status other than 404, throw
    the TypeError of the failed conversion instead of their own error: the
    constructor of the error throws before there is an error object. The
    request has been made. *)
Theorem X18_unconvertible_error_field o w req s e' res :
  request_of o = Some req →
  transport_of o req (env w) = (s, e') →
  fetched s = Fulfilled res →
  ok res = false →
  message_from_body o res = true →
  ToString (error_field res) = None →
  raised o w = Some (Foreign ConversionError) ∧
  fetches (log (world_after o w)) = S (fetches (log w)).
Proof.
  intros Hreq Hf Hres Hok Hfrom Hnone. split.
  2: { rewrite (world_after_run _ _ _ _ _ Hreq Hf). apply world_after_request_fetches. }
  unfold error_field, parsed_error in Hnone.
  destruct o as [ds op | c data nm opts | c]; cbn in Hreq, Hf, Hfrom;
    unfold raised, thrown.
  - apply issued_Some in Hreq as (t & Ht & ->).
    destruct op; try discriminate Hfrom.
    all: apply andb_true_iff in Hfrom as [_ H404%negb_true_iff].
    all: run_dataset Ht Hf; rewrite Hres; cbn; rewrite Hok; cbn.
    all: unfold Dataset_parseError, try_catch; cbn.
    all: destruct (json res) as [b | r]; cbn in Hnone |- *; try discriminate Hnone.
    all: rewrite H404; cbn.
    all: unfold throw_new, new_QueryError, new_GagaraError.
    all: rewrite (Error_message_unconvertible _ _ Hnone); reflexivity.
  - injection Hreq as <-.
    run_client Hf. rewrite Hres; cbn; rewrite Hok; cbn.
    unfold Client_parseError, try_catch; cbn.
    destruct (json res) as [b | r]; cbn in Hnone |- *; try discriminate Hnone.
    unfold throw_new, new_GagaraError.
    rewrite (Error_message_unconvertible _ _ Hnone). reflexivity.
  - discriminate Hfrom.
Qed.

(** X19. On a handle whose token does not convert to a string (an object
    with an own [toString] key, which [upload] stores as it comes), every
    method throws the TypeError of the failed conversion while it builds the
    address or the Authorization header: no timer is armed, the transport is
    not invoked, the world is as it was. *)
Theorem X19_unconvertible_token ds op w :
  ToString (token ds) = None →
  perform ds op w = (Throws (Foreign ConversionError), w).
Proof.
  intros Ht. destruct op; run_unconvertible Ht; reflexivity.
Qed.

End Platform.

Arguments Fulfilled {A} a.
Arguments Rejected {A} reason.
Arguments Returns {number A} a.
Arguments Throws {number A} e.

(** * A concrete platform

    Integers for numbers, printed in decimal, and a network without state
    whose transport gives the same answer to every request: the mock of
    [test/client.test.ts]. *)

#[export] Instance Z_JSNumber : JSNumber Z := pretty.

Definition answering (s : settlement (number := Z)) : transport (Env := unit) :=
  λ _ e, (s, e).

Definition respond (st : Z) (b : promise (value (number := Z))) : settlement :=
  {| timer_fired := false;
     fetched := Fulfilled {| res_status := st; json := b |} |}.

Definition unreachable : settlement (number := Z) :=
  {| timer_fired := false; fetched := Rejected (NetworkError "Network error") |}.

Definition timed_out : settlement (number := Z) :=
  {| timer_fired := true; fetched := Rejected AbortError |}.

Definition test_client (s : settlement) : GagaraClient :=
  new_GagaraClient (answering unreachable)
    {| options_baseUrl := "https://gagara.test/";
       options_fetch := Some (answering s);
       options_timeout := None |}.

Definition idle : World (number := Z) :=
  {| env := tt; pending := ∅; next_timer := 0%nat; log := [] |}.

Definition users_rows : value (number := Z) :=
  VArr [VObj [("id", VNum 1); ("name", VStr "Alice")];
        VObj [("id", VNum 2); ("name", VStr "Bob")]].

Definition users_table : value (number := Z) :=
  VObj [("columns", VArr [VStr "id"; VStr "name"]); ("rows", users_rows)].

Definition unknown_token : value (number := Z) :=
  VObj [("error", VStr "unknown token")].

Definition syntax_error : value (number := Z) :=
  VObj [("error", VStr "syntax error at position 0")].

Definition not_json : promise (value (number := Z)) :=
  Rejected (SyntaxError "Unexpected end of JSON input").

(** JSON [{"toString": 1}]: an object that does not convert to a string. *)
Definition own_toString : value (number := Z) :=
  VObj [("toString", VNum 1)].

(** ** The test suite, evaluated *)

Example client_strips_one_slash :
  Client_baseUrl (test_client unreachable) = "https://gagara.test"
  ∧ strip_trailing_slash "https://gagara.test//" = "https://gagara.test/"
  ∧ Client_timeout (test_client unreachable) = 30000.
Proof. repeat split. Qed.

Example upload_returns_dataset :
  (upload (test_client (respond 200 (Fulfilled (VObj [("token", VStr "abc123")]))))
     (Uint8Array []) "users" {| format := None |} idle).1
  = Returns (fromToken (test_client (respond 200 (Fulfilled (VObj [("token", VStr "abc123")]))))
               "abc123").
Proof. vm_compute. reflexivity. Qed.

Example query_returns_rows :
  (query (fromToken (test_client (respond 200 (Fulfilled users_table))) "test-token")
     "SELECT * FROM dataset" idle).1
  = Returns (VArr [VObj [("id", VNum 1); ("name", VStr "Alice")];
                   VObj [("id", VNum 2); ("name", VStr "Bob")]]).
Proof. reflexivity. Qed.

Example query_sends_bearer_token :
  log (query (fromToken (test_client (respond 200 (Fulfilled users_table))) "test-token")
         "SELECT 1" idle).2
  = [EvSetTimeout 0 30000;
     EvFetch {| url := "https://gagara.test/query";
                init := {| method := Some "POST";
                           headers := [("Content-Type", "application/json");
                                       ("Authorization", "Bearer test-token")];
                           req_body := Some (BodyJson (VObj [("sql", VStr "SELECT 1")])) |} |}
       0;
     EvClearTimeout 0].
Proof. reflexivity. Qed.

Example query_throws_not_found_on_404 :
  (query (fromToken (test_client (respond 404 (Fulfilled unknown_token))) "missing")
     "SELECT 1" idle).1
  = Throws (Gagara {| class := DatasetNotFoundErrorClass;
                      name := "DatasetNotFoundError";
                      message := "Dataset not found: missing";
                      status := 404;
                      body := VUndefined |}).
Proof. reflexivity. Qed.

Example query_throws_query_error_on_bad_sql :
  (query (fromToken (test_client (respond 400 (Fulfilled syntax_error))) "test")
     "SELEKT *" idle).1
  = Throws (Gagara {| class := QueryErrorClass;
                      name := "QueryError";
                      message := "syntax error at position 0";
                      status := 400;
                      body := syntax_error |}).
Proof. reflexivity. Qed.

Example health_true_when_healthy :
  (health (test_client (respond 200 (Fulfilled (VObj [("status", VStr "ok")])))) idle).1
  = Returns true.
Proof. reflexivity. Qed.

Example health_false_when_unreachable :
  (health (test_client unreachable) idle).1 = Returns false
  ∧ (health (test_client timed_out) idle).1 = Returns false
  ∧ (health (test_client (respond 503 not_json)) idle).1 = Returns false.
Proof. repeat split. Qed.

(** Conversions: what prints and what throws. *)
Example conversions :
  ToString (VObj [("id", VNum 1)]) = Some "[object Object]"
  ∧ ToString (VArr [VNum 1; VNull; VStr "a"; VArr [VBool true; VUndefined]])
    = Some "1,,a,true,"
  ∧ ToString own_toString = None
  ∧ ToString (VArr [VNum 1; own_toString]) = None
  ∧ ToString (VObj [("valueOf", VNum 1)]) = Some "[object Object]".
Proof. repeat split. Qed.

Example query_on_unconvertible_error_field :
  (query (fromToken (test_client (respond 500 (Fulfilled (VObj [("error", own_toString)]))))
            "test")
     "SELECT 1" idle).1
  = Throws (Foreign ConversionError).
Proof. reflexivity. Qed.

(** ** The theorems at the test suite's inputs *)

Definition handle_on (s : settlement) (t : string) : Dataset :=
  fromToken (test_client s) t.

Definition response (st : Z) (b : promise (value (number := Z))) : Response :=
  {| res_status := st; json := b |}.

Definition out_of_memory : value (number := Z) :=
  VObj [("error", VStr "out of memory")].

(** A 404 on [query] is a DatasetNotFoundError naming the token; a 503 on
    [schema] is a plain GagaraError. *)
Lemma C1_witness :
  (∃ e, (perform (handle_on (respond 404 (Fulfilled unknown_token)) "missing")
           (OpQuery "SELECT 1") idle).1 = Throws (Gagara e)
        ∧ class e = DatasetNotFoundErrorClass
        ∧ message e = "Dataset not found: missing")
  ∧ (∃ e, (perform (handle_on (respond 503 not_json) "test-token") OpSchema idle).1
          = Throws (Gagara e)
          ∧ class e = GagaraErrorClass).
Proof.
  split.
  - destruct (C1_not_found_exactly_on_404
                (handle_on (respond 404 (Fulfilled unknown_token)) "missing")
                (OpQuery "SELECT 1") idle
                (issued_with (handle_on (respond 404 (Fulfilled unknown_token)) "missing")
                   "missing" (OpQuery "SELECT 1"))
                (respond 404 (Fulfilled unknown_token)) tt
                (response 404 (Fulfilled unknown_token)))
      as (e & t & He & Ht & H404 & _).
    + discriminate.
    + reflexivity.
    + reflexivity.
    + reflexivity.
    + reflexivity.
    + intros _ Hne. exfalso. apply Hne. reflexivity.
    + exists e. destruct (H404 eq_refl) as (Hc & _ & Hm).
      split; [exact He | split; [exact Hc |]].
      rewrite Hm. injection Ht as <-. reflexivity.
  - destruct (C1_not_found_exactly_on_404
                (handle_on (respond 503 not_json) "test-token")
                OpSchema idle
                (issued_with (handle_on (respond 503 not_json) "test-token")
                   "test-token" OpSchema)
                (respond 503 not_json) tt (response 503 not_json))
      as (e & t & He & _ & _ & Hother).
    + discriminate.
    + reflexivity.
    + reflexivity.
    + reflexivity.
    + reflexivity.
    + discriminate.
    + exists e. destruct Hother as (Hc & _); [discriminate | auto].
Defined.

(** A 500 on [query] is caught as a QueryError whose status is 400, not the
    500 of the response. *)
Lemma C2_counterexample :
  ∃ e, (query (handle_on (respond 500 (Fulfilled out_of_memory)) "test")
          "SELECT 1" idle).1 = Throws (Gagara e)
       ∧ class e = QueryErrorClass
       ∧ res_status (response 500 (Fulfilled out_of_memory)) = 500
       ∧ status e = 400
       ∧ status e ≠ res_status (response 500 (Fulfilled out_of_memory)).
Proof.
  eexists. split; [reflexivity |]. cbn. repeat split. discriminate.
Qed.

Lemma C2_witness :
  ∃ e, raised (OnDataset (handle_on (respond 500 (Fulfilled out_of_memory)) "test")
                 (OpQuery "SELECT 1")) idle = Some (Gagara e)
       ∧ status e = 400.
Proof.
  destruct (C2_status_of_the_error_raised
              (OnDataset (handle_on (respond 500 (Fulfilled out_of_memory)) "test")
                 (OpQuery "SELECT 1"))
              idle
              (issued_with (handle_on (respond 500 (Fulfilled out_of_memory)) "test")
                 "test" (OpQuery "SELECT 1"))
              (respond 500 (Fulfilled out_of_memory)) tt
              (response 500 (Fulfilled out_of_memory)))
    as (e & He & Hs & _).
  - reflexivity.
  - reflexivity.
  - reflexivity.
  - reflexivity.
  - intros _. exists "out of memory". reflexivity.
  - exists e. split; [exact He | exact Hs].
Defined.

Lemma C3_witness :
  (queryFull (handle_on (respond 200 (Fulfilled users_table)) "test-token")
     "SELECT * FROM dataset" idle).1
  = Returns (VObj [("columns", VArr [VStr "id"; VStr "name"]);
                   ("rows", VArr [VObj [("id", VNum 1); ("name", VStr "Alice")];
                                  VObj [("id", VNum 2); ("name", VStr "Bob")]])])
  ∧ (query (handle_on (respond 200 (Fulfilled users_table)) "test-token")
       "SELECT * FROM dataset" idle).1
    = Returns (VArr [VObj [("id", VNum 1); ("name", VStr "Alice")];
                     VObj [("id", VNum 2); ("name", VStr "Bob")]]).
Proof.
  exact (proj2 (C3_query_is_rows_of_queryFull
                  (handle_on (respond 200 (Fulfilled users_table)) "test-token")
                  "SELECT * FROM dataset" idle)
           (issued_with (handle_on (respond 200 (Fulfilled users_table)) "test-token")
              "test-token" (OpQuery "SELECT * FROM dataset"))
           (respond 200 (Fulfilled users_table)) tt eq_refl eq_refl).
Defined.

Lemma C4_witness :
  ∃ ds, (upload (test_client (respond 200 (Fulfilled (VObj [("token", VStr "abc123")]))))
           (Uint8Array []) "users" {| format := None |} idle).1 = Returns ds
        ∧ token ds = VStr "abc123".
Proof.
  exact (proj2 (C4_upload_returns_the_token_of_the_body
                  (test_client (respond 200 (Fulfilled (VObj [("token", VStr "abc123")]))))
                  (Uint8Array []) "users" {| format := None |} idle
                  (respond 200 (Fulfilled (VObj [("token", VStr "abc123")]))) tt
                  (response 200 (Fulfilled (VObj [("token", VStr "abc123")])))
                  (VObj [("token", VStr "abc123")])
                  eq_refl eq_refl eq_refl eq_refl)
           [("token", VStr "abc123")] eq_refl).
Defined.

(** A 500 whose body carries an error text, and a 500 whose body is not
    JSON: the text and the body, or the default message and no body. *)
Lemma C5_witness :
  (∃ e, (upload (test_client (respond 500 (Fulfilled out_of_memory)))
           (Uint8Array []) "users" {| format := None |} idle).1 = Throws (Gagara e)
        ∧ status e = 500
        ∧ body e = VObj [("error", VStr "out of memory")]
        ∧ message e = "out of memory")
  ∧ (∃ e, (upload (test_client (respond 500 not_json))
             (ArrayBuffer []) "users" {| format := Some parquet |} idle).1
          = Throws (Gagara e)
          ∧ status e = 500
          ∧ body e = VUndefined
          ∧ message e = "Upload failed: 500").
Proof.
  split.
  - destruct (C5_upload_failure
                (test_client (respond 500 (Fulfilled out_of_memory)))
                (Uint8Array []) "users" {| format := None |} idle
                (respond 500 (Fulfilled out_of_memory)) tt
                (response 500 (Fulfilled out_of_memory)) "out of memory")
      as (e & He & _ & _ & Hs & Hb & Hm & _).
    + reflexivity.
    + reflexivity.
    + reflexivity.
    + reflexivity.
    + exists e. cbn in Hb. rewrite Hb in Hm. cbn in Hs, Hm. auto.
  - destruct (C5_upload_failure
                (test_client (respond 500 not_json))
                (ArrayBuffer []) "users" {| format := Some parquet |} idle
                (respond 500 not_json) tt (response 500 not_json) "undefined")
      as (e & He & _ & _ & Hs & Hb & Hm & _).
    + reflexivity.
    + reflexivity.
    + reflexivity.
    + reflexivity.
    + exists e. cbn in Hb. rewrite Hb in Hm. cbn in Hs, Hm. auto.
Defined.

(** A 404 on [isPresent] is a plain GagaraError; a 200 gives the flag. *)
Lemma C6_witness :
  (isPresent (handle_on (respond 404 (Fulfilled unknown_token)) "missing") idle).1
  = Throws (Gagara {| class := GagaraErrorClass;
                      name := "GagaraError";
                      message := "Failed to check presence";
                      status := 404;
                      body := VUndefined |})
  ∧ (isPresent (handle_on (respond 200 (Fulfilled (VObj [("isPresent", VBool true)])))
                  "test-token") idle).1
    = Returns (VBool true).
Proof.
  split.
  - apply (C6_isPresent
             (handle_on (respond 404 (Fulfilled unknown_token)) "missing") idle
             (issued_with (handle_on (respond 404 (Fulfilled unknown_token)) "missing")
                "missing" OpIsPresent)
             (respond 404 (Fulfilled unknown_token)) tt
             (response 404 (Fulfilled unknown_token))).
    + reflexivity.
    + reflexivity.
    + reflexivity.
    + right. reflexivity.
  - apply (proj2 (C6_isPresent
             (handle_on (respond 200 (Fulfilled (VObj [("isPresent", VBool true)])))
                "test-token") idle
             (issued_with
                (handle_on (respond 200 (Fulfilled (VObj [("isPresent", VBool true)])))
                   "test-token")
                "test-token" OpIsPresent)
             (respond 200 (Fulfilled (VObj [("isPresent", VBool true)]))) tt
             (response 200 (Fulfilled (VObj [("isPresent", VBool true)])))
             eq_refl eq_refl eq_refl) eq_refl [("isPresent", VBool true)] eq_refl).
Defined.

(** Two other calls are in flight. *)
Definition busy : World (number := Z) :=
  {| env := tt;
     pending := {[0%nat; 1%nat]};
     next_timer := 2%nat;
     log := [EvSetTimeout 0 30000; EvSetTimeout 1 30000] |}.

Lemma busy_fresh : timers_fresh busy.
Proof. intros id Hin. cbn in *. set_unfold. lia. Qed.

(** A request that times out: the timer fired, and is cleared all the same. *)
Lemma C9_witness :
  timer_scoped 30000 (health_request (test_client timed_out)) busy
    (health (test_client timed_out) busy).2.
Proof.
  exact (C9_timer_is_scoped_to_the_call (Health (test_client timed_out)) busy
           (health_request (test_client timed_out)) eq_refl busy_fresh).
Defined.

Example timed_out_health_log :
  log (health (test_client timed_out) busy).2
  = [EvSetTimeout 0 30000; EvSetTimeout 1 30000;
     EvSetTimeout 2 30000;
     EvFetch {| url := "https://gagara.test/health";
                init := {| method := None; headers := []; req_body := None |} |} 2;
     EvTimerFired 2;
     EvClearTimeout 2].
Proof. reflexivity. Qed.

Definition missing_not_found : GagaraError (number := Z) :=
  {| class := DatasetNotFoundErrorClass;
     name := "DatasetNotFoundError";
     message := "Dataset not found: missing";
     status := 404;
     body := VUndefined |}.

(** The 404 of the test suite carries a body; the error caught does not. *)
Lemma C10_witness :
  ∃ ds op req res t,
    OnDataset (handle_on (respond 404 (Fulfilled unknown_token)) "missing")
      (OpQueryFull "SELECT 1") = OnDataset ds op
    ∧ op ≠ OpIsPresent
    ∧ issued ds op = Some req
    ∧ fetched (Dataset_fetch ds req (env idle)).1 = Fulfilled res
    ∧ res_status res = 404
    ∧ class missing_not_found = DatasetNotFoundErrorClass
    ∧ name missing_not_found = "DatasetNotFoundError"
    ∧ status missing_not_found = 404
    ∧ ToString (token ds) = Some t
    ∧ message missing_not_found = "Dataset not found: " +:+ t
    ∧ body missing_not_found = VUndefined.
Proof.
  apply (C10_shape_of_not_found
           (OnDataset (handle_on (respond 404 (Fulfilled unknown_token)) "missing")
              (OpQueryFull "SELECT 1"))
           idle
           missing_not_found).
  - reflexivity.
  - left. reflexivity.
Defined.

(** ** The further properties at concrete inputs *)

Definition schema_columns : value (number := Z) :=
  VArr [VObj [("name", VStr "id"); ("data_type", VStr "BIGINT");
              ("nullable", VBool false)];
        VObj [("name", VStr "name"); ("data_type", VStr "VARCHAR");
              ("nullable", VBool true)]].

(** A server with one dataset, which a DELETE removes: the state is whether
    the dataset is gone. *)
Definition one_dataset_server : transport (number := Z) (Env := bool) :=
  λ req gone,
    if gone then (respond 404 (Fulfilled unknown_token), true)
    else match method (init req) with
         | Some "DELETE" => (respond 204 not_json, true)
         | _ => (respond 200 (Fulfilled users_table), false)
         end.

Definition stored_dataset : Dataset :=
  {| token := VStr "test-token";
     Dataset_baseUrl := "https://gagara.test";
     Dataset_fetch := one_dataset_server;
     Dataset_timeout := 30000 |}.

Definition serving : World (number := Z) (Env := bool) :=
  {| env := false; pending := ∅; next_timer := 0%nat; log := [] |}.

(** The handle an upload returns when the server sends [{"token":
    {"toString": 1}}]. *)
Definition unusable_handle : Dataset :=
  {| token := own_toString;
     Dataset_baseUrl := "https://gagara.test";
     Dataset_fetch := answering (respond 200 (Fulfilled users_table));
     Dataset_timeout := 30000 |}.

Lemma X2_witness :
  new_GagaraClient (answering unreachable)
    {| options_baseUrl := "https://gagara.test" +:+ "/";
       options_fetch := None; options_timeout := None |}
  = new_GagaraClient (answering unreachable)
      {| options_baseUrl := "https://gagara.test";
         options_fetch := None; options_timeout := None |}
  ∧ Client_baseUrl
      (new_GagaraClient (answering unreachable)
         {| options_baseUrl := "https://gagara.test";
            options_fetch := None; options_timeout := None |})
    = "https://gagara.test".
Proof.
  apply (X2_client_ignores_one_trailing_slash (answering unreachable)
           "https://gagara.test" None None).
  reflexivity.
Defined.

Lemma X3_witness :
  raised (OnDataset (handle_on unreachable "test-token") OpSchema) idle
  = Some (Foreign (NetworkError "Network error")).
Proof.
  apply (X3_transport_failure_reaches_the_caller
           (OnDataset (handle_on unreachable "test-token") OpSchema) idle
           (issued_with (handle_on unreachable "test-token") "test-token" OpSchema)
           unreachable tt (NetworkError "Network error")).
  - reflexivity.
  - reflexivity.
  - reflexivity.
Defined.

Lemma X4_witness :
  ∃ req res,
    request_of (Upload (test_client (respond 500 not_json))
                  (Uint8Array []) "users" {| format := None |}) = Some req
    ∧ fetched (answering (respond 500 not_json) req tt).1 = Fulfilled res
    ∧ ok res = false.
Proof.
  destruct (X4_client_errors_come_from_error_responses
              (Upload (test_client (respond 500 not_json))
                 (Uint8Array []) "users" {| format := None |})
              idle
              {| class := GagaraErrorClass; name := "GagaraError";
                 message := "Upload failed: 500"; status := 500; body := VUndefined |})
    as (req & res & Hreq & Hres & Hok & _).
  - reflexivity.
  - exists req, res. auto.
Defined.

Lemma X5_witness :
  (∃ req res,
     request_of (OnDataset (handle_on (respond 200 (Fulfilled users_table)) "test-token")
                   OpMeta) = Some req
     ∧ fetched (answering (respond 200 (Fulfilled users_table)) req tt).1 = Fulfilled res
     ∧ ok res = true)
  ∨ (∃ c, OnDataset (handle_on (respond 200 (Fulfilled users_table)) "test-token") OpMeta
          = Health c).
Proof.
  apply (X5_success_needs_2xx
           (OnDataset (handle_on (respond 200 (Fulfilled users_table)) "test-token") OpMeta)
           idle).
  reflexivity.
Defined.

Lemma X6_witness :
  ∃ e, (perform (handle_on (respond 400 (Fulfilled syntax_error)) "test")
          (OpQuery "SELEKT *") idle).1 = Throws (Gagara e)
       ∧ body e = VObj [("error", VStr "syntax error at position 0")]
       ∧ message e = "syntax error at position 0".
Proof.
  destruct (X6_query_error_message_and_body
              (handle_on (respond 400 (Fulfilled syntax_error)) "test")
              (OpQuery "SELEKT *") idle
              (issued_with (handle_on (respond 400 (Fulfilled syntax_error)) "test")
                 "test" (OpQuery "SELEKT *"))
              (respond 400 (Fulfilled syntax_error)) tt
              (response 400 (Fulfilled syntax_error)) "syntax error at position 0")
    as (e & He & _ & Hb & Hm & _).
  - reflexivity.
  - reflexivity.
  - reflexivity.
  - reflexivity.
  - reflexivity.
  - discriminate.
  - reflexivity.
  - exists e. cbn in Hb. rewrite Hb in Hm. auto.
Defined.

Lemma X7_witness :
  (perform (handle_on (respond 503 (Fulfilled out_of_memory)) "test-token")
     (OpRename "new-name") idle).1
  = Throws (Gagara {| class := GagaraErrorClass;
                      name := "GagaraError";
                      message := "Failed to rename";
                      status := 503;
                      body := VUndefined |}).
Proof.
  apply (X7_plain_errors_ignore_the_body
           (handle_on (respond 503 (Fulfilled out_of_memory)) "test-token")
           (OpRename "new-name") idle
           (issued_with (handle_on (respond 503 (Fulfilled out_of_memory)) "test-token")
              "test-token" (OpRename "new-name"))
           (respond 503 (Fulfilled out_of_memory)) tt
           (response 503 (Fulfilled out_of_memory))).
  - reflexivity.
  - reflexivity.
  - reflexivity.
  - reflexivity.
  - reflexivity.
  - discriminate.
Defined.

Lemma X8_witness :
  raised (OnDataset (handle_on (respond 204 not_json) "test-token") OpDelete) idle = None.
Proof.
  apply (X8_no_body_needed_on_success
           (OnDataset (handle_on (respond 204 not_json) "test-token") OpDelete) idle
           (issued_with (handle_on (respond 204 not_json) "test-token")
              "test-token" OpDelete)
           (respond 204 not_json) tt (response 204 not_json)).
  - reflexivity.
  - reflexivity.
  - reflexivity.
  - reflexivity.
  - reflexivity.
Defined.

Lemma X9_witness :
  raised (OnDataset (handle_on (respond 200 not_json) "test-token") (OpQuery "SELECT 1"))
    idle
  = Some (Foreign (SyntaxError "Unexpected end of JSON input")).
Proof.
  apply (X9_unparsable_success_body
           (OnDataset (handle_on (respond 200 not_json) "test-token") (OpQuery "SELECT 1"))
           idle
           (issued_with (handle_on (respond 200 not_json) "test-token")
              "test-token" (OpQuery "SELECT 1"))
           (respond 200 not_json) tt (response 200 not_json)
           (SyntaxError "Unexpected end of JSON input")).
  - reflexivity.
  - reflexivity.
  - reflexivity.
  - reflexivity.
  - reflexivity.
  - reflexivity.
Defined.

Lemma X10_witness :
  (perform (handle_on (respond 200 (Fulfilled (VObj [("columns", schema_columns)])))
              "test-token") OpSchema idle).1
  = Returns (VArr [VObj [("name", VStr "id"); ("data_type", VStr "BIGINT");
                         ("nullable", VBool false)];
                   VObj [("name", VStr "name"); ("data_type", VStr "VARCHAR");
                         ("nullable", VBool true)]]).
Proof.
  apply (proj1 (proj2 (X10_schema_meta_and_null_bodies
           (handle_on (respond 200 (Fulfilled (VObj [("columns", schema_columns)])))
              "test-token") OpSchema idle
           (issued_with
              (handle_on (respond 200 (Fulfilled (VObj [("columns", schema_columns)])))
                 "test-token") "test-token" OpSchema)
           (respond 200 (Fulfilled (VObj [("columns", schema_columns)]))) tt
           (response 200 (Fulfilled (VObj [("columns", schema_columns)])))
           (VObj [("columns", schema_columns)])
           eq_refl eq_refl eq_refl eq_refl eq_refl))
         eq_refl [("columns", schema_columns)] eq_refl).
Defined.

Lemma X11_witness :
  ∃ ds, (upload (test_client (respond 201 (Fulfilled (VObj [("id", VStr "abc123")]))))
           (Uint8Array []) "users" {| format := None |} idle).1 = Returns ds
        ∧ token ds = VUndefined
        ∧ ∃ req, issued ds OpSchema = Some req
                 ∧ url req = "https://gagara.test" +:+ "/catalog/undefined/schema".
Proof.
  destruct (X11_upload_without_token_key
              (test_client (respond 201 (Fulfilled (VObj [("id", VStr "abc123")]))))
              (Uint8Array []) "users" {| format := None |} idle
              (respond 201 (Fulfilled (VObj [("id", VStr "abc123")]))) tt
              (response 201 (Fulfilled (VObj [("id", VStr "abc123")])))
              [("id", VStr "abc123")])
    as (ds & Hds & Htok & Hurl & _).
  - reflexivity.
  - reflexivity.
  - reflexivity.
  - reflexivity.
  - cbn. intros Hin. apply list_elem_of_singleton in Hin. discriminate Hin.
  - exists ds. auto.
Defined.

(** Three calls, the second on a handle whose token does not convert: two
    requests. *)
Lemma X12_witness :
  pending (run_all [Health (test_client timed_out);
                    OnDataset unusable_handle OpSchema;
                    Upload (test_client timed_out) (Uint8Array []) "users"
                      {| format := None |}] busy)
  = pending busy
  ∧ fetches (log (run_all [Health (test_client timed_out);
                           OnDataset unusable_handle OpSchema;
                           Upload (test_client timed_out) (Uint8Array []) "users"
                             {| format := None |}] busy))
    = 2%nat.
Proof.
  destruct (X12_calls_in_sequence
              [Health (test_client timed_out);
               OnDataset unusable_handle OpSchema;
               Upload (test_client timed_out) (Uint8Array []) "users"
                 {| format := None |}] busy busy_fresh)
    as (Hp & _ & _ & Hc & _).
  split; [exact Hp | exact Hc].
Defined.

Lemma X14_witness :
  ∃ ds fired,
    (upload (test_client (respond 200 (Fulfilled (VObj [("token", VStr "abc123")]))))
       (Uint8Array []) "users" {| format := None |} idle).1 = Returns ds
    ∧ log (query ds "SELECT 1"
             (upload (test_client (respond 200 (Fulfilled (VObj [("token", VStr "abc123")]))))
                (Uint8Array []) "users" {| format := None |} idle).2).2
      = (log (upload (test_client (respond 200 (Fulfilled (VObj [("token", VStr "abc123")]))))
                (Uint8Array []) "users" {| format := None |} idle).2
         ++ [EvSetTimeout 1 30000;
             EvFetch
               {| url := "https://gagara.test" +:+ "/query";
                  init := {| method := Some "POST";
                             headers := [("Content-Type", "application/json");
                                         ("Authorization", "Bearer " +:+ "abc123")];
                             req_body := Some (BodyJson (VObj [("sql", VStr "SELECT 1")])) |} |}
               1]
         ++ (if fired : bool then [EvTimerFired 1] else [])
         ++ [EvClearTimeout 1])%list.
Proof.
  exact (X14_uploaded_token_is_the_bearer
           (test_client (respond 200 (Fulfilled (VObj [("token", VStr "abc123")]))))
           (Uint8Array []) "users" {| format := None |} idle
           (respond 200 (Fulfilled (VObj [("token", VStr "abc123")]))) tt
           (response 200 (Fulfilled (VObj [("token", VStr "abc123")])))
           [("token", VStr "abc123")] "abc123" "SELECT 1"
           eq_refl eq_refl eq_refl eq_refl eq_refl).
Defined.

Lemma X16_witness :
  transport_of
    (OnDataset
       (fromToken
          (new_GagaraClient (answering unreachable)
             {| options_baseUrl := "https://gagara.test/";
                options_fetch := None; options_timeout := Some 5000 |})
          "test-token") OpMeta)
  = answering unreachable.
Proof.
  destruct (X16_options_govern_every_call (answering unreachable)
              {| options_baseUrl := "https://gagara.test/";
                 options_fetch := None; options_timeout := Some 5000 |}
              (OnDataset
                 (fromToken
                    (new_GagaraClient (answering unreachable)
                       {| options_baseUrl := "https://gagara.test/";
                          options_fetch := None; options_timeout := Some 5000 |})
                    "test-token") OpMeta)
              idle)
    as (_ & Htransport & _).
  - exists "test-token". reflexivity.
  - exact Htransport.
Defined.

Lemma X17_witness :
  (Dataset_delete stored_dataset serving).1 = Returns tt
  ∧ (perform stored_dataset (OpQuery "SELECT 1") (Dataset_delete stored_dataset serving).2).1
    = Throws (Gagara {| class := DatasetNotFoundErrorClass;
                        name := "DatasetNotFoundError";
                        message := "Dataset not found: " +:+ "test-token";
                        status := 404;
                        body := VUndefined |})
  ∧ fetches (log (perform stored_dataset (OpQuery "SELECT 1")
                    (Dataset_delete stored_dataset serving).2).2)
    = 2%nat.
Proof.
  apply (X17_after_delete stored_dataset (OpQuery "SELECT 1") serving "test-token"
           (respond 204 not_json) true (response 204 not_json)
           (respond 404 (Fulfilled unknown_token)) true
           (response 404 (Fulfilled unknown_token))).
  - reflexivity.
  - reflexivity.
  - reflexivity.
  - reflexivity.
  - discriminate.
  - reflexivity.
  - reflexivity.
  - reflexivity.
Defined.

Lemma X18_witness :
  raised (Upload (test_client (respond 500 (Fulfilled (VObj [("error", own_toString)]))))
            (Uint8Array []) "users" {| format := None |}) idle
  = Some (Foreign ConversionError).
Proof.
  apply (X18_unconvertible_error_field
           (Upload (test_client (respond 500 (Fulfilled (VObj [("error", own_toString)]))))
              (Uint8Array []) "users" {| format := None |}) idle
           (upload_request
              (test_client (respond 500 (Fulfilled (VObj [("error", own_toString)]))))
              (Uint8Array []) "users" {| format := None |})
           (respond 500 (Fulfilled (VObj [("error", own_toString)]))) tt
           (response 500 (Fulfilled (VObj [("error", own_toString)])))).
  - reflexivity.
  - reflexivity.
  - reflexivity.
  - reflexivity.
  - reflexivity.
  - reflexivity.
Defined.

Lemma X19_witness :
  perform unusable_handle (OpQuery "SELECT 1") busy
  = (Throws (Foreign ConversionError), busy).
Proof.
  apply (X19_unconvertible_token unusable_handle (OpQuery "SELECT 1") busy).
  reflexivity.
Defined.

Example one_dataset_server_session :
  (query stored_dataset "SELECT * FROM dataset" serving).1
  = Returns (VArr [VObj [("id", VNum 1); ("name", VStr "Alice")];
                   VObj [("id", VNum 2); ("name", VStr "Bob")]])
  ∧ (isPresent stored_dataset (Dataset_delete stored_dataset serving).2).1
    = Throws (Gagara {| class := GagaraErrorClass;
                        name := "GagaraError";
                        message := "Failed to check presence";
                        status := 404;
                        body := VUndefined |}).
Proof. split; reflexivity. Qed.

(** An upload answered with a token that does not convert returns a handle
    all the same; the handle is of no use. *)
Example upload_stores_any_token :
  (upload (test_client (respond 200 (Fulfilled (VObj [("token", own_toString)]))))
     (Uint8Array []) "users" {| format := None |} idle).1
  = Returns {| token := own_toString;
               Dataset_baseUrl := "https://gagara.test";
               Dataset_fetch := answering (respond 200 (Fulfilled (VObj [("token", own_toString)])));
               Dataset_timeout := 30000 |}.
Proof. reflexivity. Qed.
